(** * TradeMatrix: query pipeline, statistics and retail-price arithmetic

    A shallow embedding of the Python sources

      - [backend/services/data.py]       (module [Data]),
      - [backend/services/mcp_tools.py]  (module [McpTools]),
      - [backend/main.py]                (module [Main]),
      - [app.py]                         (module [App]),

    together with the part of the Python runtime they rely on (module [Py]).

    Conventions of the embedding.

      - A Python [float] is an exact rational ([Q]): a decimal literal
        denotes its decimal value, arithmetic is exact, and the infinities
        and NaN are not represented.  [round(x, 2)] rounds the exact value
        half to even, as CPython does on the exact value of a double.
      - A [str] is a [string] of bytes; [str.lower] and the regular
        expression classes act on the ASCII range.
      - A dictionary is a record when its keys are fixed, and an
        association list in insertion order when they are not.
      - A call that may raise returns a [Py.result]: [Ok v] or [Raise e].
      - The world outside the process (environment variables, the HTTP
        collaborators, the language model, the clock, the random
        generator) is an explicit argument.
      - The text of an answer is kept as the template it is built from,
        with the values that fill it.

    The definitions come first, module by module; the properties follow,
    those of the runtime first, then one section for each group of
    functions. *)

From Stdlib Require Import ZArith QArith Qround Qabs Lia Lqa.
From Stdlib Require Import Bool List Ascii String DecimalString DecimalN.
From Stdlib Require Import Sorting.Permutation.
Import ListNotations.

Local Open Scope string_scope.
Local Open Scope Z_scope.
Local Open Scope Q_scope.

(* ================================================================== *)
(** * The Python runtime the sources use                              *)
(* ================================================================== *)

Module Py.

(** ** Exceptions and results *)

Inductive exn : Type :=
| TypeError
| ValueError
| ZeroDivisionError
| OverflowError
| StatisticsError
| IndexError
| KeyError
| HTTPStatusError
| RequestError
| HTTPException (status : Z).

Inductive result (A : Type) : Type :=
| Ok (a : A)
| Raise (e : exn).

Arguments Ok {A} a.
Arguments Raise {A} e.

Definition bind {A B : Type} (m : result A) (k : A -> result B) : result B :=
  match m with
  | Ok a => k a
  | Raise e => Raise e
  end.

Notation "x <- m ;; k" := (bind m (fun x => k))
  (at level 61, m at next level, right associativity).

Definition returns {A : Type} (m : result A) : Prop :=
  exists a, m = Ok a.

(** [try: m  except Exception: handler] *)
Definition try_except {A : Type} (m : result A) (handler : exn -> result A)
  : result A :=
  match m with
  | Ok a => Ok a
  | Raise e => handler e
  end.

(** ** Numbers *)

(** [round(q)] to the nearest integer, ties to the even one. *)
Definition round_half_even (q : Q) : Z :=
  let f := Qfloor q in
  match Qcompare (q - inject_Z f) (1 # 2) with
  | Lt => f
  | Gt => (f + 1)%Z
  | Eq => if Z.even f then f else (f + 1)%Z
  end.

(** [round(x, 2)] *)
Definition round2 (x : Q) : Q :=
  inject_Z (round_half_even (x * 100)) / 100.

(** [a / b] on floats: division by zero raises. *)
Definition truediv (a b : Q) : result Q :=
  if Qeq_bool b 0 then Raise ZeroDivisionError else Ok (a / b).

(** [round(math.sqrt(v), 2)] for [v >= 0], computed exactly: the integer
    [r] nearest to [100 * sqrt v] (ties to even), over 100.  With
    [w = 10000 * v] and [n = floor (sqrt w)], [r] is [n] or [n + 1]
    according to the side of [(n + 1/2)^2] on which [w] lies. *)
Definition round_sqrt_hundredths (v : Q) : Z :=
  let w := v * 10000 in
  let n := Z.sqrt (Qfloor w) in
  let half := inject_Z n + (1 # 2) in
  match Qcompare w (half * half) with
  | Lt => n
  | Gt => (n + 1)%Z
  | Eq => if Z.even n then n else (n + 1)%Z
  end.

Definition round2_sqrt (v : Q) : Q :=
  inject_Z (round_sqrt_hundredths v) / 100.

(** ** Characters and strings *)

Definition is_upper (c : ascii) : bool :=
  let n := nat_of_ascii c in (65 <=? n)%nat && (n <=? 90)%nat.

Definition is_lower (c : ascii) : bool :=
  let n := nat_of_ascii c in (97 <=? n)%nat && (n <=? 122)%nat.

Definition is_digit (c : ascii) : bool :=
  let n := nat_of_ascii c in (48 <=? n)%nat && (n <=? 57)%nat.

(** ASCII whitespace: space, [\t], [\n], [\v], [\f], [\r]. *)
Definition is_space (c : ascii) : bool :=
  let n := nat_of_ascii c in
  (n =? 32)%nat || ((9 <=? n)%nat && (n <=? 13)%nat).

Definition lower_char (c : ascii) : ascii :=
  if is_upper c then ascii_of_nat (nat_of_ascii c + 32) else c.

(** [s.lower()] *)
Fixpoint lower (s : string) : string :=
  match s with
  | EmptyString => EmptyString
  | String c s' => String (lower_char c) (lower s')
  end.

(** [s.split(sep)] for a one-character separator: never empty. *)
Fixpoint split (sep : ascii) (s : string) : list string :=
  match s with
  | EmptyString => [EmptyString]
  | String c s' =>
      if Ascii.eqb c sep then EmptyString :: split sep s'
      else match split sep s' with
           | w :: ws => String c w :: ws
           | [] => [String c EmptyString]
           end
  end.

Fixpoint lstrip (s : string) : string :=
  match s with
  | String c s' => if is_space c then lstrip s' else s
  | EmptyString => EmptyString
  end.

Fixpoint rev_string (s acc : string) : string :=
  match s with
  | EmptyString => acc
  | String c s' => rev_string s' (String c acc)
  end.

(** [s.strip()] *)
Definition strip (s : string) : string :=
  let r := lstrip (rev_string (lstrip s) EmptyString) in
  rev_string r EmptyString.

(** [sub in s] *)
Fixpoint contains (sub s : string) : bool :=
  String.prefix sub s ||
  match s with
  | EmptyString => false
  | String _ s' => contains sub s'
  end.

(** [s.endswith(suffix)] *)
Definition endswith (s suffix : string) : bool :=
  String.prefix (rev_string suffix EmptyString) (rev_string s EmptyString).

(** [s.zfill(2)] for a string of digits *)
Definition zfill2 (s : string) : string :=
  match String.length s with
  | O => "00"
  | S O => String "0" s
  | _ => s
  end.

(** ** Numerals *)

Definition digit_val (c : ascii) : Z := Z.of_nat (nat_of_ascii c - 48).

(** The longest prefix of digits, as (value so far, digits read, rest). *)
Fixpoint read_digits (s : string) (acc : Z) (n : nat) : Z * nat * string :=
  match s with
  | String c s' =>
      if is_digit c then read_digits s' (acc * 10 + digit_val c)%Z (S n)
      else (acc, n, s)
  | EmptyString => (acc, n, s)
  end.

(** An optional sign: [true] for a minus. *)
Definition read_sign (s : string) : bool * string :=
  match s with
  | String "-" s' => (true, s')
  | String "+" s' => (false, s')
  | _ => (false, s)
  end.

(** [int(s)] for a string: optional blanks, an optional sign, digits. *)
Definition int_of_str (s : string) : result Z :=
  let '(neg, s1) := read_sign (strip s) in
  let '(v, n, rest) := read_digits s1 0%Z O in
  match n, rest with
  | S _, EmptyString => Ok (if neg then (- v)%Z else v)
  | _, _ => Raise ValueError
  end.

(** The exponent part of a decimal numeral: [e] or [E], a sign, digits. *)
Definition read_exponent (s : string) : option Z :=
  match s with
  | EmptyString => Some 0%Z
  | String c s' =>
      if Ascii.eqb c "e" || Ascii.eqb c "E" then
        let '(neg, s1) := read_sign s' in
        let '(v, n, rest) := read_digits s1 0%Z O in
        match n, rest with
        | S _, EmptyString => Some (if neg then (- v)%Z else v)
        | _, _ => None
        end
      else None
  end.

Definition pow10 (k : Z) : Q :=
  if (0 <=? k)%Z then inject_Z (10 ^ k) else 1 / inject_Z (10 ^ (- k)).

(** [float(s)] for a string holding a finite decimal numeral
    ([" 80.5 "], ["-3"], [".5"], ["1e-3"]); anything else raises
    [ValueError].  The numerals of the infinities and of NaN, and digits
    grouped with underscores, are outside the model. *)
Definition float_of_str (s : string) : result Q :=
  let '(neg, s1) := read_sign (strip s) in
  let '(ip, ni, s2) := read_digits s1 0%Z O in
  let '(fp, nf, s3) :=
    match s2 with
    | String "." s2' => read_digits s2' 0%Z O
    | _ => (0%Z, O, s2)
    end in
  match (ni + nf)%nat, read_exponent s3 with
  | S _, Some e =>
      let m := inject_Z ip + inject_Z fp * pow10 (- Z.of_nat nf) in
      let v := Qred (m * pow10 e) in
      Ok (if neg then - v else v)
  | _, _ => Raise ValueError
  end.

(** ** Calendar dates ([datetime.date]) *)

Record date : Type := mkDate {
  year : Z;
  month : Z;
  day : Z
}.

Definition is_leap (y : Z) : bool :=
  (y mod 4 =? 0)%Z && (negb (y mod 100 =? 0)%Z || (y mod 400 =? 0)%Z).

Definition days_before_year (y : Z) : Z :=
  let p := (y - 1)%Z in (p * 365 + p / 4 - p / 100 + p / 400)%Z.

Definition DAYS_IN_MONTH : list Z :=
  [31; 28; 31; 30; 31; 30; 31; 31; 30; 31; 30; 31]%Z.

Definition DAYS_BEFORE_MONTH : list Z :=
  [0; 31; 59; 90; 120; 151; 181; 212; 243; 273; 304; 334]%Z.

Definition month_index (m : Z) : nat := Z.to_nat (m - 1).

(** [calendar.monthrange(y, m)[1]] *)
Definition days_in_month (y m : Z) : Z :=
  if (m =? 2)%Z && is_leap y then 29%Z
  else nth (month_index m) DAYS_IN_MONTH 0%Z.

Definition days_before_month (y m : Z) : Z :=
  (nth (month_index m) DAYS_BEFORE_MONTH 0
   + (if (2 <? m)%Z && is_leap y then 1 else 0))%Z.

Definition MAXYEAR : Z := 9999.
Definition MAXORDINAL : Z := 3652059.

(** The triples [date(y, m, d)] accepts. *)
Definition valid_date (d : date) : bool :=
  (1 <=? year d)%Z && (year d <=? MAXYEAR)%Z &&
  (1 <=? month d)%Z && (month d <=? 12)%Z &&
  (1 <=? day d)%Z && (day d <=? days_in_month (year d) (month d))%Z.

(** [d.toordinal()] *)
Definition toordinal (d : date) : Z :=
  (days_before_year (year d) + days_before_month (year d) (month d)
   + day d)%Z.

(** The month and the day of a day of the year [nd], counted from 0:
    the estimate [(nd + 50) >> 5] of the month is one too many when the
    days before it exceed [nd]. *)
Definition month_day (leapyear : bool) (nd : Z) : Z * Z :=
  let m := ((nd + 50) / 32)%Z in
  let preceding :=
    (nth (month_index m) DAYS_BEFORE_MONTH 0
     + (if (2 <? m)%Z && leapyear then 1 else 0))%Z in
  if (nd <? preceding)%Z then
    let m' := (m - 1)%Z in
    let preceding' :=
      (preceding - (nth (month_index m') DAYS_IN_MONTH 0
                    + (if (m' =? 2)%Z && leapyear then 1 else 0)))%Z in
    (m', nd - preceding' + 1)%Z
  else (m, nd - preceding + 1)%Z.

(** [date.fromordinal(n)], with CPython's arithmetic on the 400-, 100-,
    4- and 1-year cycles. *)
Definition fromordinal (n : Z) : date :=
  let n0 := (n - 1)%Z in
  let n400 := (n0 / 146097)%Z in
  let n1r := (n0 mod 146097)%Z in
  let n100 := (n1r / 36524)%Z in
  let n2r := (n1r mod 36524)%Z in
  let n4 := (n2r / 1461)%Z in
  let n3r := (n2r mod 1461)%Z in
  let n1 := (n3r / 365)%Z in
  let nd := (n3r mod 365)%Z in
  let y := (n400 * 400 + 1 + n100 * 100 + n4 * 4 + n1)%Z in
  if (n1 =? 4)%Z || (n100 =? 4)%Z then mkDate (y - 1) 12 31
  else
    let leapyear := (n1 =? 3)%Z && (negb (n4 =? 24)%Z || (n100 =? 3)%Z) in
    let '(m, d) := month_day leapyear nd in
    mkDate y m d.

(** [datetime.timedelta(days=n)] *)
Definition timedelta (n : Z) : result Z :=
  if (Z.abs n <=? 999999999)%Z then Ok n else Raise OverflowError.

(** [d + delta], [d - delta] for a delta of [n] days. *)
Definition date_add (d : date) (n : Z) : result date :=
  let o := (toordinal d + n)%Z in
  if (1 <=? o)%Z && (o <=? MAXORDINAL)%Z then Ok (fromordinal o)
  else Raise OverflowError.

Definition date_sub (d : date) (n : Z) : result date := date_add d (- n).

(** [(a - b).days] *)
Definition days_between (a b : date) : Z := (toordinal a - toordinal b)%Z.

Definition digit_char (n : Z) : ascii := ascii_of_nat (48 + Z.to_nat n).

(** [f"{n:02d}"] and [f"{n:04d}"] for [0 <= n] below 100 and 10000. *)
Definition pad2 (n : Z) : string :=
  String (digit_char (n / 10)) (String (digit_char (n mod 10)) EmptyString).

Definition pad4 (n : Z) : string :=
  String (digit_char (n / 1000))
    (String (digit_char (n / 100 mod 10)) (pad2 (n mod 100))).

(** [d.isoformat()]; also [d.strftime("%Y-%m-%d")] and [str(d)]. *)
Definition isoformat (d : date) : string :=
  pad4 (year d) ++ "-" ++ pad2 (month d) ++ "-" ++ pad2 (day d).

Definition make_date (y m d : Z) : result date :=
  let dt := mkDate y m d in
  if valid_date dt then Ok dt else Raise ValueError.

(** [date.fromisoformat(s)]: exactly [YYYY-MM-DD]. *)
Definition fromisoformat (s : string) : result date :=
  let '(y, ny, s1) := read_digits s 0%Z O in
  match ny, s1 with
  | 4%nat, String "-" s2 =>
      let '(m, nm, s3) := read_digits s2 0%Z O in
      match nm, s3 with
      | 2%nat, String "-" s4 =>
          let '(d, nd, s5) := read_digits s4 0%Z O in
          match nd, s5 with
          | 2%nat, EmptyString => make_date y m d
          | _, _ => Raise ValueError
          end
      | _, _ => Raise ValueError
      end
  | _, _ => Raise ValueError
  end.

(** [datetime.strptime(s, "%Y-%m-%d").date()]: four digits for the year,
    one or two for the month and for the day. *)
Definition strptime_ymd (s : string) : result date :=
  let '(y, ny, s1) := read_digits s 0%Z O in
  match ny, s1 with
  | 4%nat, String "-" s2 =>
      let '(m, nm, s3) := read_digits s2 0%Z O in
      match s3 with
      | String "-" s4 =>
          let '(d, nd, s5) := read_digits s4 0%Z O in
          match s5 with
          | EmptyString =>
              if ((1 <=? nm) && (nm <=? 2) && (1 <=? nd) && (nd <=? 2))%nat
              then make_date y m d else Raise ValueError
          | _ => Raise ValueError
          end
      | _ => Raise ValueError
      end
  | _, _ => Raise ValueError
  end.

(** ** Regular expressions ([re])

    A backtracking matcher with the priorities of [re]: the alternatives
    of [|] are tried from the left, [*], [+], [?] and [{m,n}] take as
    much as they can first, and [search] returns the leftmost match. *)

Inductive regex : Type :=
| Eps
| Chr (p : ascii -> bool)
| Seq (a b : regex)
| Alt (a b : regex)
| Star (a : regex)
| Group (i : nat) (a : regex)
| WordB.

(** The text of the groups that took part in a match, latest first. *)
Definition groups : Type := list (nat * string).

Fixpoint group (i : nat) (c : groups) : option string :=
  match c with
  | [] => None
  | (j, s) :: c' => if Nat.eqb i j then Some s else group i c'
  end.

Fixpoint take (n : nat) (s : string) : string :=
  match n, s with
  | S n', String a s' => String a (take n' s')
  | _, _ => EmptyString
  end.

Definition is_word (c : ascii) : bool :=
  is_upper c || is_lower c || is_digit c || Ascii.eqb c "_".

Definition at_boundary (prev : option ascii) (s : string) : bool :=
  let before := match prev with Some c => is_word c | None => false end in
  let after := match s with String c _ => is_word c | _ => false end in
  xorb before after.

(** [run r prev s c k]: match [r] at the head of [s], where [prev] is the
    character before it, then go on with [k]. *)
Fixpoint run (r : regex) (prev : option ascii) (s : string) (c : groups)
    (k : option ascii -> string -> groups -> option groups)
  : option groups :=
  match r with
  | Eps => k prev s c
  | Chr p =>
      match s with
      | String a s' => if p a then k (Some a) s' c else None
      | EmptyString => None
      end
  | Seq a b => run a prev s c (fun prev' s' c' => run b prev' s' c' k)
  | Alt a b =>
      match run a prev s c k with
      | Some c' => Some c'
      | None => run b prev s c k
      end
  | Star a =>
      (fix loop (n : nat) (prev : option ascii) (s : string) (c : groups)
         : option groups :=
         match n with
         | O => k prev s c
         | S n' =>
             match run a prev s c
                     (fun prev' s' c' =>
                        if (String.length s' <? String.length s)%nat
                        then loop n' prev' s' c' else None) with
             | Some c' => Some c'
             | None => k prev s c
             end
         end) (S (String.length s)) prev s c
  | Group i a =>
      run a prev s c
        (fun prev' s' c' =>
           k prev' s'
             ((i, take (String.length s - String.length s') s) :: c'))
  | WordB => if at_boundary prev s then k prev s c else None
  end.

(** [re.search]: the groups of the leftmost match, if there is one. *)
Fixpoint search_from (r : regex) (prev : option ascii) (s : string)
  : option groups :=
  match run r prev s [] (fun _ _ c => Some c) with
  | Some c => Some c
  | None =>
      match s with
      | String a s' => search_from r (Some a) s'
      | EmptyString => None
      end
  end.

(** *** Reading a pattern *)

Definition upper_char (c : ascii) : ascii :=
  if is_lower c then ascii_of_nat (nat_of_ascii c - 32) else c.

(** [re.IGNORECASE] *)
Fixpoint ignorecase (r : regex) : regex :=
  match r with
  | Chr p => Chr (fun c => p c || p (lower_char c) || p (upper_char c))
  | Seq a b => Seq (ignorecase a) (ignorecase b)
  | Alt a b => Alt (ignorecase a) (ignorecase b)
  | Star a => Star (ignorecase a)
  | Group i a => Group i (ignorecase a)
  | Eps => Eps
  | WordB => WordB
  end.

Fixpoint repeat_re (a : regex) (n : nat) : regex :=
  match n with
  | O => Eps
  | S n' => Seq a (repeat_re a n')
  end.

(** Up to [n] more copies of [a], as many as possible. *)
Fixpoint upto_re (a : regex) (n : nat) : regex :=
  match n with
  | O => Eps
  | S n' => Alt (Seq a (upto_re a n')) Eps
  end.

(** The inside of [[...]]: single characters and ranges, up to the
    closing bracket. *)
Fixpoint read_class (s : string) (p : ascii -> bool)
  : option ((ascii -> bool) * string) :=
  match s with
  | EmptyString => None
  | String "]" s' => Some (p, s')
  | String lo (String "-" (String hi s')) =>
      if Ascii.eqb hi "]"
      then Some (fun c => p c || Ascii.eqb c lo || Ascii.eqb c "-", s')
      else read_class s'
             (fun c => p c ||
                ((nat_of_ascii lo <=? nat_of_ascii c)%nat &&
                 (nat_of_ascii c <=? nat_of_ascii hi)%nat))
  | String a s' => read_class s' (fun c => p c || Ascii.eqb c a)
  end.

(** A postfix operator, if one follows. *)
Definition read_quantifier (a : regex) (s : string) : regex * string :=
  match s with
  | String "*" s' => (Star a, s')
  | String "+" s' => (Seq a (Star a), s')
  | String "?" s' => (Alt a Eps, s')
  | String "{" s' =>
      let '(lo, n1, s1) := read_digits s' 0%Z O in
      match n1, s1 with
      | S _, String "}" s2 => (repeat_re a (Z.to_nat lo), s2)
      | S _, String "," s2 =>
          let '(hi, n2, s3) := read_digits s2 0%Z O in
          match n2, s3 with
          | S _, String "}" s4 =>
              (Seq (repeat_re a (Z.to_nat lo))
                   (upto_re a (Z.to_nat hi - Z.to_nat lo)), s4)
          | _, _ => (a, s)
          end
      | _, _ => (a, s)
      end
  | _ => (a, s)
  end.

(** The three levels of the grammar: alternatives, sequences, atoms.
    [g] is the number of the next capturing group. *)
Fixpoint read_alt (fuel : nat) (s : string) (g : nat)
  : option (regex * string * nat) :=
  match fuel with
  | O => None
  | S fuel' =>
      match read_seq fuel' s g with
      | Some (a, String "|" s', g') =>
          match read_alt fuel' s' g' with
          | Some (b, s'', g'') => Some (Alt a b, s'', g'')
          | None => None
          end
      | other => other
      end
  end
with read_seq (fuel : nat) (s : string) (g : nat)
  : option (regex * string * nat) :=
  match fuel with
  | O => None
  | S fuel' =>
      match s with
      | EmptyString | String "|" _ | String ")" _ => Some (Eps, s, g)
      | _ =>
          match read_atom fuel' s g with
          | Some (a, s', g') =>
              let '(a', s'') := read_quantifier a s' in
              match read_seq fuel' s'' g' with
              | Some (b, s3, g3) => Some (Seq a' b, s3, g3)
              | None => None
              end
          | None => None
          end
      end
  end
with read_atom (fuel : nat) (s : string) (g : nat)
  : option (regex * string * nat) :=
  match fuel with
  | O => None
  | S fuel' =>
      match s with
      | String "(" (String "?" (String ":" s')) =>
          match read_alt fuel' s' g with
          | Some (a, String ")" s'', g') => Some (a, s'', g')
          | _ => None
          end
      | String "(" s' =>
          match read_alt fuel' s' (S g) with
          | Some (a, String ")" s'', g') => Some (Group g a, s'', g')
          | _ => None
          end
      | String "[" s' =>
          match read_class s' (fun _ => false) with
          | Some (p, s'') => Some (Chr p, s'', g)
          | None => None
          end
      | String "\" (String "s" s') => Some (Chr is_space, s', g)
      | String "\" (String "d" s') => Some (Chr is_digit, s', g)
      | String "\" (String "w" s') => Some (Chr is_word, s', g)
      | String "\" (String "b" s') => Some (WordB, s', g)
      | String "\" (String a s') => Some (Chr (Ascii.eqb a), s', g)
      | String "." s' =>
          Some (Chr (fun c => negb (Ascii.eqb c "010")), s', g)
      | String a s' => Some (Chr (Ascii.eqb a), s', g)
      | EmptyString => None
      end
  end.

(** [re.compile(pattern)]; the groups are numbered from 1. *)
Definition compile (pattern : string) : option regex :=
  match read_alt (3 * String.length pattern + 3) pattern 1 with
  | Some (r, EmptyString, _) => Some r
  | _ => None
  end.

(** [re.search(pattern, s)] and [re.search(pattern, s, re.IGNORECASE)];
    a pattern that does not compile matches nothing. *)
Definition search (pattern s : string) : option groups :=
  match compile pattern with
  | Some r => search_from r None s
  | None => None
  end.

Definition search_ignorecase (pattern s : string) : option groups :=
  match compile pattern with
  | Some r => search_from (ignorecase r) None s
  | None => None
  end.

Definition matches (pattern s : string) : bool :=
  match search pattern s with Some _ => true | None => false end.

(** ** Objects

    The values a JSON payload puts under ["value"]: a string, a number or
    [null]. *)
Inductive obj : Type :=
| Str (s : string)
| Float (q : Q)
| NoneV.

(** An operand of float arithmetic: a [TypeError] unless it is a number. *)
Definition as_float (o : obj) : result Q :=
  match o with
  | Float x => Ok x
  | _ => Raise TypeError
  end.

(** The numbers of a list, or the [TypeError] of the first comparison or
    sum that meets something else. *)
Fixpoint floats (vs : list obj) : result (list Q) :=
  match vs with
  | [] => Ok []
  | Float q :: vs' => qs <- floats vs' ;; Ok (q :: qs)
  | _ :: _ => Raise TypeError
  end.

(** ** Comparisons, [min], [max], [sorted] *)

Definition ltb (a b : Q) : bool := negb (Qle_bool b a).
Definition gtb (a b : Q) : bool := ltb b a.

Fixpoint min_from (m : Q) (xs : list Q) : Q :=
  match xs with
  | [] => m
  | x :: xs' => min_from (if ltb x m then x else m) xs'
  end.

Fixpoint max_from (m : Q) (xs : list Q) : Q :=
  match xs with
  | [] => m
  | x :: xs' => max_from (if gtb x m then x else m) xs'
  end.

(** [min(xs)], [max(xs)]: a [ValueError] on an empty sequence. *)
Definition min (xs : list Q) : result Q :=
  match xs with
  | [] => Raise ValueError
  | x :: xs' => Ok (min_from x xs')
  end.

Definition max (xs : list Q) : result Q :=
  match xs with
  | [] => Raise ValueError
  | x :: xs' => Ok (max_from x xs')
  end.

Fixpoint insert (x : Q) (l : list Q) : list Q :=
  match l with
  | [] => [x]
  | y :: l' => if Qle_bool x y then x :: l else y :: insert x l'
  end.

(** [sorted(xs)] *)
Definition sorted (xs : list Q) : list Q := fold_right insert [] xs.

(** ** The [statistics] module *)

Definition sum (xs : list Q) : Q := fold_left Qplus xs 0.

Definition len (xs : list Q) : Q := inject_Z (Z.of_nat (List.length xs)).

(** [statistics.mean] *)
Definition mean (xs : list Q) : result Q :=
  match xs with
  | [] => Raise StatisticsError
  | _ => Ok (sum xs / len xs)
  end.

(** [statistics.median] *)
Definition median (xs : list Q) : result Q :=
  let data := sorted xs in
  let n := List.length data in
  match n with
  | O => Raise StatisticsError
  | _ =>
      let i := Nat.div n 2 in
      if Nat.even n
      then Ok ((nth (i - 1) data 0 + nth i data 0) / 2)
      else Ok (nth i data 0)
  end.

(** [statistics.variance]: the sample variance. *)
Definition variance (xs : list Q) : result Q :=
  match xs with
  | [] | [_] => Raise StatisticsError
  | _ =>
      let c := sum xs / len xs in
      let ss := sum (map (fun x => (x - c) * (x - c)) xs) in
      Ok (ss / (len xs - 1))
  end.

(** [round(statistics.stdev(xs), 2)] *)
Definition stdev_round2 (xs : list Q) : result Q :=
  v <- variance xs ;; Ok (round2_sqrt v).

End Py.

(* ================================================================== *)
(** * The dictionaries the sources pass around                        *)
(* ================================================================== *)

Module Dicts.
Import Py.

(** One entry of [COUNTRY_FUEL_DATA]. *)
Record CountryFuel : Type := mkCountryFuel {
  tax_rate : Q;
  vat : Q;
  currency : string;
  local_name : string;
  common_fuels : list string;
  price_factor : Q;
  price_unit : string;
  crude_conversion : Q;
  notes : string
}.

(** The dictionary stored under ["retail_price"]; [process_market_query]
    adds the two rates, [_compute_retail_price] does not. *)
Record RetailQuote : Type := mkRetailQuote {
  price : Q;
  unit : string;
  country : string;
  common_fuel : string;
  retail_currency : string;
  retail_tax_rate : option Q;
  retail_vat : option Q
}.

(** The statistics dictionary; the last two keys are set afterwards, when
    a supported location was asked for. *)
Record Stats : Type := mkStats {
  min : Q;
  max : Q;
  mean : Q;
  median : Q;
  range : Q;
  start_price : Q;
  end_price : Q;
  percent_change : Q;
  volatility : Q;
  retail_price : option RetailQuote;
  fx_rate : option Q
}.

(** The dictionary literal that [analyze_price_data] (mcp_tools.py, lines
    108-118) and [_calculate_statistics] (app.py, lines 605-615) both
    build, entry by entry, from a list of floats. *)
Definition stats_dict (values : list Q) (first_price last_price : Q)
    (percent_change : Q) : Py.result Stats :=
  lo <- Py.min values ;;
  hi <- Py.max values ;;
  avg <- Py.mean values ;;
  med <- Py.median values ;;
  vol <- (if (1 <? List.length values)%nat
          then Py.stdev_round2 values else Py.Ok 0) ;;
  Py.Ok {| min := lo; max := hi; mean := avg; median := med;
           range := hi - lo;
           start_price := first_price; end_price := last_price;
           percent_change := Py.round2 percent_change;
           volatility := vol;
           retail_price := None; fx_rate := None |}.

(** The four assignments to [price_local] that mcp_tools.py (lines
    263-269, 383-386, 853-856) and main.py (lines 138-141) repeat. *)
Definition price_local_with_fx (latest_price_usd : Q)
    (country_data : CountryFuel) (fx_rate : Q) : Q :=
  let price_local :=
    (latest_price_usd * price_factor country_data)
    / crude_conversion country_data in
  let price_local := price_local * (1 + tax_rate country_data / 100) in
  let price_local := price_local * (1 + vat country_data / 100) in
  let price_local := price_local * fx_rate in
  price_local.

(** [xs[0] if xs else "Fuel"] *)
Definition first_or_fuel (xs : list string) : string :=
  match xs with
  | x :: _ => x
  | [] => "Fuel"
  end.

(** [d[key]] on a dictionary kept as an association list. *)
Fixpoint lookup {A : Type} (key : string) (d : list (string * A)) : option A :=
  match d with
  | [] => None
  | (k, v) :: d' => if String.eqb k key then Some v else lookup key d'
  end.

(** [d[key] = v]: the value is replaced where the key is, otherwise the
    pair is added at the end. *)
Fixpoint store {A : Type} (key : string) (v : A) (d : list (string * A))
  : list (string * A) :=
  match d with
  | [] => [(key, v)]
  | (k, w) :: d' =>
      if String.eqb k key then (k, v) :: d' else (k, w) :: store key v d'
  end.

End Dicts.

(* ================================================================== *)
(** * backend/services/data.py                                        *)
(* ================================================================== *)

Module Data.
Import Py Dicts.

(** An entry of a price series: [{"date": ..., "value": ...}]. *)
Record item : Type := mkItem {
  date : string;
  value : obj
}.

(** ** What the module reads from outside *)

(** An element of the list under ["data"] in the EIA payload: a JSON
    object, of which only the keys ["period"] and ["value"] are read, or a
    number or [null], on which the membership test raises. *)
Inductive api_item : Type :=
| ApiObject (period : option string) (val : option obj)
| ApiScalar.

(** The body of the EIA answer, as far as [fetch_oil_prices] looks at it. *)
Inductive eia_payload : Type :=
| EiaNoData (has_error has_warnings : bool)
| EiaData (api_data : list api_item)
| EiaUnexpected.

(** The body of the exchange-rate answer. *)
Inductive oxr_payload : Type :=
| OxrNoRates
| OxrRates (rates : list (string * Q))
| OxrUnexpected.

(** The outcome of [client.get] followed by [raise_for_status] and
    [r.json()]. *)
Inductive http_outcome (A : Type) : Type :=
| Responds (payload : A)
| Fails (e : exn).

Arguments Responds {A} payload.
Arguments Fails {A} e.

(** The environment variables, the two HTTP collaborators, the draws of
    [random.uniform(-0.5, 0.5)] in the order they are made, and the clock
    ([date.today()], [datetime.now().timestamp()]). *)
Record World : Type := mkWorld {
  EIA_KEY : option string;
  OXR_KEY : option string;
  eia_get : string -> string -> http_outcome eia_payload;
  oxr_get : string -> string -> http_outcome oxr_payload;
  uniform : nat -> Q;
  today : Py.date;
  now : Z
}.

(** [not key] for a value of [os.getenv]. *)
Definition unset (key : option string) : bool :=
  match key with
  | None | Some EmptyString => true
  | Some _ => false
  end.

(** ** Float to text *)

Definition string_of_N (n : Z) : string :=
  DecimalString.NilZero.string_of_uint (N.to_uint (Z.to_N n)).

(** [str(x)] for a float with at most two decimals, [x = k / 100]:
    ["80.0"], ["80.5"], ["80.25"]. *)
Definition str_hundredths (k : Z) : string :=
  let a := Z.abs k in
  let frac := (a mod 100)%Z in
  (if (k <? 0)%Z then "-" else "") ++
  string_of_N (a / 100) ++ "." ++
  (if (frac mod 10 =? 0)%Z
   then String (digit_char (frac / 10)) EmptyString
   else pad2 frac).

(** ** The synthetic oil series *)

(** The body of the loop of lines 28-36, for the index [i]. *)
Definition mock_oil_item (w : World) (start_date : Py.date) (i : nat)
  : result item :=
  current_date <- date_add start_date (Z.of_nat i) ;;
  let base_price := 80.0 in
  let price :=
    base_price + inject_Z (Z.of_nat i mod 10) * 0.1 + uniform w i in
  Ok {| date := isoformat current_date;
        value := Str (str_hundredths (round_half_even (price * 100))) |}.

(** [for i in range(n): data.append(body i)] *)
Fixpoint for_range {A : Type} (body : nat -> result A) (n : nat)
  : result (list A) :=
  match n with
  | O => Ok []
  | S n' => data <- for_range body n' ;; x <- body n' ;; Ok (data ++ [x])%list
  end.

Definition generate_mock_oil_data (w : World) (start end_ : string)
  : result (list item) :=
  start_date <- strptime_ymd start ;;
  end_date <- strptime_ymd end_ ;;
  let days := (days_between end_date start_date + 1)%Z in
  for_range (mock_oil_item w start_date) (Z.to_nat days).

(** ** The live oil series *)

(** Lines 84-93: the items that have both keys, renamed. *)
Fixpoint transform (api_data : list api_item) : result (list item) :=
  match api_data with
  | [] => Ok []
  | ApiObject (Some p) (Some v) :: rest =>
      data <- transform rest ;; Ok ({| date := p; value := v |} :: data)
  | ApiObject _ _ :: rest => transform rest
  | ApiScalar :: _ => Raise TypeError
  end.

Definition is_nil {A : Type} (l : list A) : bool :=
  match l with [] => true | _ => false end.

Definition fetch_oil_prices (w : World) (start end_ : string)
  : result (list item) :=
  if unset (EIA_KEY w) then generate_mock_oil_data w start end_
  else
    try_except
      (match eia_get w start end_ with
       | Fails e => Raise e
       | Responds EiaUnexpected => Raise TypeError
       | Responds (EiaNoData _ _) => generate_mock_oil_data w start end_
       | Responds (EiaData api_data) =>
           transformed_data <- transform api_data ;;
           if is_nil transformed_data && negb (is_nil api_data)
           then generate_mock_oil_data w start end_
           else Ok transformed_data
       end)
      (fun _ => generate_mock_oil_data w start end_).

(** ** Exchange rates *)

(** [{symbol: 1.0 + (i * 0.1) for i, symbol in enumerate(symbols)}],
    from the index [i] on. *)
Fixpoint mock_rates (symbols : list string) (i : nat)
    (acc : list (string * Q)) : list (string * Q) :=
  match symbols with
  | [] => acc
  | symbol :: rest =>
      mock_rates rest (S i)
        (store symbol (1.0 + inject_Z (Z.of_nat i) * 0.1) acc)
  end.

Definition generate_mock_fx_data (symbols : string) : list (string * Q) :=
  mock_rates (split "," symbols) O [].

Definition fetch_fx_rates (w : World) (base symbols : string)
  : result (list (string * Q)) :=
  if unset (OXR_KEY w) then Ok (generate_mock_fx_data symbols)
  else
    try_except
      (match oxr_get w base symbols with
       | Fails e => Raise e
       | Responds OxrUnexpected => Raise TypeError
       | Responds OxrNoRates => Ok (generate_mock_fx_data symbols)
       | Responds (OxrRates rates) => Ok rates
       end)
      (fun _ => Ok (generate_mock_fx_data symbols)).

End Data.

(* ================================================================== *)
(** * backend/services/mcp_tools.py                                   *)
(* ================================================================== *)

Module McpTools.
Import Py Dicts Data.

Definition COUNTRY_FUEL_DATA : list (string * CountryFuel) :=
  [ ("germany",
     {| tax_rate := 65.45; vat := 19.0; currency := "EUR";
        local_name := "Germany";
        common_fuels := ["Diesel"; "Super E10"; "Super E5"; "Super Plus"];
        price_factor := 1.15; price_unit := "€/liter";
        crude_conversion := 159;
        notes := "Germany has among the highest fuel taxes in Europe, with prices varying significantly across regions." |});
    ("usa",
     {| tax_rate := 18.4; vat := 0.0; currency := "USD";
        local_name := "United States";
        common_fuels := ["Regular Gasoline"; "Premium Gasoline"; "Diesel"];
        price_factor := 1.05; price_unit := "$/gallon";
        crude_conversion := 42;
        notes := "US fuel prices vary significantly by state due to different state taxes." |});
    ("uk",
     {| tax_rate := 57.95; vat := 20.0; currency := "GBP";
        local_name := "United Kingdom";
        common_fuels := ["Unleaded"; "Premium Unleaded"; "Diesel"];
        price_factor := 1.1; price_unit := "£/liter";
        crude_conversion := 159;
        notes := "UK fuel prices include fuel duty and VAT." |}) ].

(** What [analyze_price_data] returns: [{"trend": ..., "stats": ...}]. *)
Record Analysis : Type := mkAnalysis {
  trend : string;
  stats : option Stats
}.

(** The loop of lines 90-98: a string is converted, or skipped when it is
    no numeral; anything else is taken as it is. *)
Fixpoint numeric_values (oil_data : list item) : list obj :=
  match oil_data with
  | [] => []
  | it :: rest =>
      match value it with
      | Str s =>
          match float_of_str s with
          | Ok q => Float q :: numeric_values rest
          | Raise _ => numeric_values rest
          end
      | v => v :: numeric_values rest
      end
  end.

(** Lines 120-130. *)
Definition trend_of (percent_change : Q) : string :=
  if gtb percent_change 5 then "strongly upward"
  else if gtb percent_change 1 then "moderately upward"
  else if ltb percent_change (-5) then "strongly downward"
  else if ltb percent_change (-1) then "moderately downward"
  else "relatively stable".

Definition analyze_price_data (oil_data : list item) : result Analysis :=
  if (List.length oil_data <? 2)%nat then
    Ok {| trend := "insufficient data"; stats := None |}
  else
    let values := numeric_values oil_data in
    match values with
    | [] => Ok {| trend := "invalid data"; stats := None |}
    | first_price :: _ =>
        let last_price := last values first_price in
        l <- as_float last_price ;;
        f <- as_float first_price ;;
        r <- truediv (l - f) f ;;
        let percent_change := r * 100 in
        xs <- floats values ;;
        st <- stats_dict xs f l percent_change ;;
        Ok {| trend := trend_of percent_change; stats := Some st |}
    end.

(** ** The direct accessors (lines 421-429) *)


Definition get_fx_rate (w : World) (symbol : string)
  : result (list (string * option Q)) :=
  rates <- fetch_fx_rates w "USD" symbol ;;
  Ok [(symbol, lookup symbol rates)].

(** ** Reading a question without the language model (lines 550-639) *)

(** The dictionary of parameters a question is turned into. *)
Record Parameters : Type := mkParameters {
  intent : string;
  location : option string;
  start_date : option string;
  end_date : option string;
  currency : option string;
  refined_question : string;
  original_query : string
}.

Definition country_names : list (string * list string) :=
  [ ("germany", ["germany"; "deutschland"]);
    ("usa", ["usa"; "united states"; "america"; "us"]);
    ("uk", ["uk"; "united kingdom"; "britain"; "england"; "london"]) ].

Definition any_term_in (terms : list string) (text : string) : bool :=
  existsb (fun term => contains term text) terms.

(** Lines 556-563. *)
Definition fallback_intent (question_lower : string) : string :=
  if any_term_in ["oil"; "crude"; "price"; "brent"; "fuel"; "gas"; "petrol"]
       question_lower then "oil_price"
  else if any_term_in ["fx"; "exchange"; "currency"; "rate"] question_lower
  then "fx_rates"
  else if any_term_in ["weather"; "temperature"; "rain"; "forecast"]
            question_lower then "weather"
  else "oil_price".

(** Lines 572-578: the first country one of whose aliases occurs. *)
Fixpoint fallback_location (names : list (string * list string))
    (question_lower : string) : option string :=
  match names with
  | [] => None
  | (country, aliases) :: rest =>
      if any_term_in aliases question_lower then Some country
      else fallback_location rest question_lower
  end.

Definition date_range_pattern : string :=
  "(?:from|between)\s+((?:Jan|Feb|Mar|Apr|May|Jun|Jul|Aug|Sep|Oct|Nov|Dec)[a-z]*\.?\s+\d{4}|\d{4}-\d{2}-\d{2}|\d{1,2}/\d{1,2}/\d{2,4})\s+(?:to|and|until|-)\s+((?:Jan|Feb|Mar|Apr|May|Jun|Jul|Aug|Sep|Oct|Nov|Dec)[a-z]*\.?\s+\d{4}|\d{4}-\d{2}-\d{2}|\d{1,2}/\d{1,2}/\d{2,4})".

Definition month_year_pattern : string :=
  "(jan|feb|mar|apr|may|jun|jul|aug|sep|oct|nov|dec)[a-z]*\.?\s+(\d{4})".

Definition month_names : list (string * string) :=
  [ ("jan", "01"); ("january", "01"); ("feb", "02"); ("february", "02");
    ("mar", "03"); ("march", "03"); ("apr", "04"); ("april", "04");
    ("may", "05"); ("jun", "06"); ("june", "06"); ("jul", "07");
    ("july", "07"); ("aug", "08"); ("august", "08"); ("sep", "09");
    ("september", "09"); ("oct", "10"); ("october", "10"); ("nov", "11");
    ("november", "11"); ("dec", "12"); ("december", "12") ].

(** [d[key]], which raises on a missing key. *)
Definition getitem {A : Type} (d : list (string * A)) (key : string)
  : result A :=
  match lookup key d with
  | Some v => Ok v
  | None => Raise KeyError
  end.

Definition group_text (i : nat) (m : groups) : string :=
  match group i m with Some s => s | None => EmptyString end.

(** Lines 601-609: a month and a year give the first of the month,
    anything else thirty days before today. *)
Definition fallback_start (w : World) (start_date_str : string)
  : result string :=
  match search month_year_pattern (lower start_date_str) with
  | Some m =>
      month <- getitem month_names (group_text 1 m) ;;
      let year := group_text 2 m in
      Ok (year ++ "-" ++ month ++ "-01")
  | None =>
      start_date <- date_sub (today w) 30 ;;
      Ok (isoformat start_date)
  end.

(** Lines 611-623: a month and a year give the last day of the month,
    anything else today. *)
Definition fallback_end (w : World) (end_date_str : string)
  : result string :=
  match search month_year_pattern (lower end_date_str) with
  | Some m =>
      month <- getitem month_names (group_text 1 m) ;;
      let year := group_text 2 m in
      y <- int_of_str year ;;
      mo <- int_of_str month ;;
      let last_day := days_in_month y mo in
      Ok (year ++ "-" ++ month ++ "-" ++ pad2 last_day)
  | None => Ok (isoformat (today w))
  end.

Definition parse_query_fallback (w : World) (question : string)
  : result Parameters :=
  let question_lower := lower question in
  let intent := fallback_intent question_lower in
  let location := fallback_location country_names question_lower in
  dates <-
    match search_ignorecase date_range_pattern question with
    | Some m =>
        start_date <- fallback_start w (group_text 1 m) ;;
        end_date <- fallback_end w (group_text 2 m) ;;
        Ok (start_date, end_date)
    | None =>
        let end_date := today w in
        start_date <- date_sub end_date 30 ;;
        Ok (isoformat start_date, isoformat end_date)
    end ;;
  Ok {| intent := intent; location := location;
        start_date := Some (fst dates); end_date := Some (snd dates);
        currency := None;
        refined_question := question; original_query := question |}.

(** ** The language model *)

(** The JSON object the model answers a parsing request with, as far as
    lines 506-536 read it; a date range, when given, holds both dates,
    and ["other_parameters"] is empty. *)
Record LlmJson : Type := mkLlmJson {
  j_intent : option string;
  j_date_range : option (string * string);
  j_country_code : option string;
  j_currency : option string;
  j_refined_question : option string
}.

(** The key, and the outcome of the two kinds of request: the text of the
    first choice, decoded as JSON for a parsing request ([None] when it
    is no JSON). *)
Record Llm : Type := mkLlm {
  OPENROUTER_API_KEY : string;
  chat_parse : string -> http_outcome (option LlmJson);
  chat_answer : string -> http_outcome string
}.

Definition or_else {A : Type} (o : option A) (d : A) : A :=
  match o with Some a => a | None => d end.

Definition parse_query_with_llm (w : World) (llm : Llm) (question : string)
  : result Parameters :=
  try_except
    (if String.eqb (OPENROUTER_API_KEY llm) "" then
       parse_query_fallback w question
     else
       match chat_parse llm question with
       | Fails e => Raise e
       | Responds None => parse_query_fallback w question
       | Responds (Some parameters) =>
           dates <-
             match j_date_range parameters with
             | Some (s, e) => Ok (s, e)
             | None =>
                 let end_date := today w in
                 start_date <- date_sub end_date 30 ;;
                 Ok (isoformat start_date, isoformat end_date)
             end ;;
           Ok {| intent := or_else (j_intent parameters) "oil_price";
                 location := option_map lower (j_country_code parameters);
                 start_date := Some (fst dates);
                 end_date := Some (snd dates);
                 currency := j_currency parameters;
                 refined_question :=
                   or_else (j_refined_question parameters) question;
                 original_query := question |}
       end)
    (fun _ => parse_query_fallback w question).

(** ** Answering a market question (lines 803-904) *)

Record OilData : Type := mkOilData {
  recent_prices : list item;
  latest_price : option item;
  oil_stats : option Stats
}.

Record FxData : Type := mkFxData {
  rates : list (string * Q);
  base : string;
  timestamp : Z
}.

(** The dictionary under ["data"]: either key may be missing. *)
Record MarketData : Type := mkMarketData {
  oil_data : option OilData;
  fx_data : option FxData
}.

(** The text of an answer, kept as the template it comes from. *)
Inductive Answer : Type :=
| FromModel (text : string)
| NoMarketData
| Template (start_date end_date trend : string) (st : Stats)
           (latest : item)
| SystemError
| ErrorWhileProcessing (e : exn).

Record MarketAnswer : Type := mkMarketAnswer {
  answer : Answer;
  data : MarketData;
  parameters : option Parameters
}.

(** [xs[-5:] if len(xs) >= 5 else xs] *)
Definition last_five {A : Type} (xs : list A) : list A :=
  skipn (List.length xs - 5) xs.

Definition last_item (xs : list item) : option item :=
  match xs with
  | [] => None
  | x :: _ => Some (last xs x)
  end.

(** Lines 832-838: the latest price as a float. *)
Definition latest_price_usd (v : obj) : result Q :=
  match v with
  | Str s =>
      match float_of_str s with
      | Ok q => Ok q
      | Raise _ => Ok 80.0
      end
  | other => as_float other
  end.

Definition fallback_fx_rate (currency : string) : Q :=
  if String.eqb currency "EUR" then 1.1
  else if String.eqb currency "GBP" then 0.8 else 1.0.

(** Lines 840-850. *)
Definition retail_fx_rate (w : World) (country_data : CountryFuel) : Q :=
  if String.eqb (Dicts.currency country_data) "USD" then 1.0
  else
    match fetch_fx_rates w "USD" (Dicts.currency country_data) with
    | Ok fx_rates =>
        or_else (lookup (Dicts.currency country_data) fx_rates) 1.0
    | Raise _ => fallback_fx_rate (Dicts.currency country_data)
    end.

(** Lines 824-868: the retail quote is stored in [stats], which is [None]
    when the series was too short to analyse. *)
Definition add_retail_price (w : World) (parameters : Parameters)
    (oil_data : list item) (stats : option Stats) : result (option Stats) :=
  match location parameters with
  | None => Ok stats
  | Some country =>
      match lookup country COUNTRY_FUEL_DATA, last_item oil_data with
      | Some country_data, Some latest =>
          latest_usd <- latest_price_usd (value latest) ;;
          let fx_rate := retail_fx_rate w country_data in
          let price_local :=
            price_local_with_fx latest_usd country_data fx_rate in
          match stats with
          | None => Raise TypeError
          | Some st =>
              Ok (Some
                {| min := min st; max := max st; mean := mean st;
                   median := median st; range := range st;
                   start_price := start_price st;
                   end_price := end_price st;
                   percent_change := percent_change st;
                   volatility := volatility st;
                   retail_price := Some
                     {| price := round2 price_local;
                        unit := price_unit country_data;
                        country := local_name country_data;
                        common_fuel :=
                          first_or_fuel (common_fuels country_data);
                        retail_currency := Dicts.currency country_data;
                        retail_tax_rate := Some (tax_rate country_data);
                        retail_vat := Some (vat country_data) |};
                   fx_rate := Some fx_rate |})
          end
      | _, _ => Ok stats
      end
  end.

(** Lines 769-778. *)
Definition fallback_trend (st : Stats) : string :=
  if gtb (percent_change st) 5 then "strongly upward"
  else if gtb (percent_change st) 1 then "moderately upward"
  else if ltb (percent_change st) (-5) then "strongly downward"
  else if ltb (percent_change st) (-1) then "moderately downward"
  else "stable".

Definition format_fallback_response (data : MarketData)
    (parameters : Parameters) : Answer :=
  match oil_data data with
  | Some {| oil_stats := Some st; latest_price := Some latest |} =>
      Template (or_else (start_date parameters) "N/A")
               (or_else (end_date parameters) "N/A")
               (fallback_trend st) st latest
  | _ => NoMarketData
  end.

Definition generate_polished_response (llm : Llm) (data : MarketData)
    (parameters : Parameters) : Answer :=
  if String.eqb (OPENROUTER_API_KEY llm) "" then
    format_fallback_response data parameters
  else
    match chat_answer llm (refined_question parameters) with
    | Responds text => FromModel text
    | Fails _ => format_fallback_response data parameters
    end.

Definition process_market_query (w : World) (llm : Llm) (question : string)
  : result MarketAnswer :=
  try_except
    (parameters <- parse_query_with_llm w llm question ;;
     oil <-
       (if String.eqb (intent parameters) "oil_price"
           || String.eqb (intent parameters) "unknown"
        then
          start_date <- match start_date parameters with
                        | Some d => Ok d | None => Raise TypeError end ;;
          end_date <- match end_date parameters with
                      | Some d => Ok d | None => Raise TypeError end ;;
          oil_data <- fetch_oil_prices w start_date end_date ;;
          analysis <- analyze_price_data oil_data ;;
          stats <- add_retail_price w parameters oil_data (stats analysis) ;;
          Ok (Some {| recent_prices := last_five oil_data;
                      latest_price := last_item oil_data;
                      oil_stats := stats |})
        else Ok None) ;;
     let fx :=
       if String.eqb (intent parameters) "fx_rates" then
         let currency := or_else (currency parameters) "EUR" in
         match fetch_fx_rates w "USD" (currency ++ ",USD,GBP,JPY,CAD") with
         | Ok fx_rates =>
             Ok (Some {| rates := fx_rates; base := "USD";
                         timestamp := now w |})
         | Raise e => Raise e
         end
       else Ok None in
     fx_data <- fx ;;
     let data := {| oil_data := oil; fx_data := fx_data |} in
     let polished_answer := generate_polished_response llm data parameters in
     Ok {| answer := polished_answer; data := data;
           parameters := Some parameters |})
    (fun e =>
       Ok {| answer := ErrorWhileProcessing e;
             data := {| oil_data := None; fx_data := None |};
             parameters := None |}).

End McpTools.

(* ================================================================== *)
(** * backend/main.py                                                 *)
(* ================================================================== *)

Module Main.
Import Py Dicts Data.




(** The other endpoints (lines 50-96) keep their body in a [try]:
    [except Exception as e: raise HTTPException(status_code=500, ...)]. *)
Definition or_500 {A : Type} (m : result A) : result A :=
  try_except m (fun _ => Raise (HTTPException 500)).

(** [GET /api/oil] *)
Definition oil (w : World) (start end_ : string) : result (list item) :=
  or_500 (fetch_oil_prices w start end_).

(** [GET /api/fx] *)
Definition fx (w : World) (base symbols : string)
  : result (list (string * Q)) :=
  or_500 (fetch_fx_rates w base symbols).



(** [GET /api/fx_rate] *)
Definition fx_rate (w : World) (symbol : string)
  : result (list (string * option Q)) :=
  or_500 (McpTools.get_fx_rate w symbol).

End Main.

(* ================================================================== *)
(** * app.py                                                          *)
(* ================================================================== *)

Module App.
Import Py Dicts.

Definition COUNTRY_FUEL_DATA : list (string * CountryFuel) :=
  [ ("germany",
     {| tax_rate := 65.45; vat := 19.0; currency := "EUR";
        local_name := "Germany";
        common_fuels := ["Diesel"; "Super E10"; "Super E5"; "Super Plus"];
        price_factor := 1.15; price_unit := "€/liter";
        crude_conversion := 159;
        notes := "Germany has among the highest fuel taxes in Europe, with prices varying significantly across regions." |});
    ("usa",
     {| tax_rate := 18.4; vat := 0.0; currency := "USD";
        local_name := "United States";
        common_fuels := ["Regular Gasoline"; "Premium Gasoline"; "Diesel"];
        price_factor := 1.05; price_unit := "$/gallon";
        crude_conversion := 42;
        notes := "US fuel prices vary significantly by state due to different state taxes." |});
    ("uk",
     {| tax_rate := 57.95; vat := 20.0; currency := "GBP";
        local_name := "United Kingdom";
        common_fuels := ["Unleaded"; "Premium Unleaded"; "Diesel"];
        price_factor := 1.1; price_unit := "£/liter";
        crude_conversion := 159;
        notes := "UK fuel prices include fuel duty and VAT." |}) ].

Definition INTENT_PATTERNS : list (string * list string) :=
  [ ("oil_price",
     [ "oil\s+pric(?:e|es|ing)";
       "crude\s+oil";
       "brent";
       "petroleum\s+pric(?:e|es|ing)";
       "fuel\s+pric(?:e|es|ing)";
       "gas\s+pric(?:e|es|ing)";
       "petrol\s+pric(?:e|es|ing)" ]);
    ("fx_rates",
     [ "(?:fx|foreign exchange|currency)\s+rat(?:e|es)";
       "exchange\s+rat(?:e|es)";
       "currency\s+conversion" ]);
    ("weather",
     [ "weather(?:\s+forecast)?";
       "temperature";
       "(?:rain|snow|precipitation)";
       "forecast" ]) ].

(** The entries of [PARAMETER_PATTERNS]. *)
Definition date_range_pattern : string :=
  "(?:from|between)\s+(\d{4}-\d{2}-\d{2}|\d{1,2}/\d{1,2}/\d{2,4}|(?:Jan|Feb|Mar|Apr|May|Jun|Jul|Aug|Sep|Oct|Nov|Dec)[a-z]*\.?\s+\d{4})\s+(?:to|and|until|-)\s+(\d{4}-\d{2}-\d{2}|\d{1,2}/\d{1,2}/\d{2,4}|(?:Jan|Feb|Mar|Apr|May|Jun|Jul|Aug|Sep|Oct|Nov|Dec)[a-z]*\.?\s+\d{4})".

Definition single_date_pattern : string :=
  "(?:on|at|for)\s+(\d{4}-\d{2}-\d{2}|\d{1,2}/\d{1,2}/\d{2,4}|(?:Jan|Feb|Mar|Apr|May|Jun|Jul|Aug|Sep|Oct|Nov|Dec)[a-z]*\.?\s+\d{1,2}(?:st|nd|rd|th)?,?\s+\d{4})".

Definition days_ago_pattern : string := "(\d+)\s+days?\s+ago".

Definition timeframe_pattern : string :=
  "(?:last|past)\s+(\d+)\s+(days?|weeks?|months?|years?)".

Definition location_pattern : string :=
  "(?:in|at|for|of)\s+([A-Za-z][a-z]+(?:\s+[A-Za-z][a-z]+)*)".

Definition fuel_keyword_pattern : string := "fuel|gas|petrol|price".

Definition month_year_pattern : string :=
  "(Jan|Feb|Mar|Apr|May|Jun|Jul|Aug|Sep|Oct|Nov|Dec)[a-z]*\.?\s+(\d{4})".

(** ** QueryProcessor *)

(** [for pattern in patterns: if re.search(pattern, text): return intent] *)
Definition any_pattern (patterns : list string) (text : string) : bool :=
  existsb (fun pattern => matches pattern text) patterns.

(** The outer loop of lines 210-213: the first intent one of whose
    patterns is found. *)
Fixpoint first_intent (table : list (string * list string))
    (query_lower : string) : option string :=
  match table with
  | [] => None
  | (intent, patterns) :: rest =>
      if any_pattern patterns query_lower then Some intent
      else first_intent rest query_lower
  end.

Definition _identify_intent (query : string) : string :=
  let query_lower := lower query in
  match first_intent INTENT_PATTERNS query_lower with
  | Some intent => intent
  | None =>
      match search location_pattern query with
      | Some _ =>
          if matches fuel_keyword_pattern query_lower then "oil_price"
          else "unknown"
      | None => "unknown"
      end
  end.

(** The temporal expression [_extract_parameters] found, under the key it
    is stored at. *)
Inductive Temporal : Type :=
| date_range (start_date end_date : string)
| single_date (date : string)
| days_ago (days : string)
| timeframe (count unit : string)
| no_temporal.

Definition group_text (i : nat) (m : groups) : string :=
  match group i m with Some s => s | None => EmptyString end.

(** Lines 251-256: a country code as a word of its own. *)
Fixpoint standalone_country (codes : list string) (query_lower : string)
  : option string :=
  match codes with
  | [] => None
  | country :: rest =>
      if matches ("\b" ++ country ++ "\b") query_lower then Some country
      else standalone_country rest query_lower
  end.

Definition _extract_parameters (query : string)
  : Temporal * option string :=
  let temporal :=
    match search date_range_pattern query with
    | Some m => date_range (group_text 1 m) (group_text 2 m)
    | None =>
        match search single_date_pattern query with
        | Some m => single_date (group_text 1 m)
        | None =>
            match search days_ago_pattern query with
            | Some m => days_ago (group_text 1 m)
            | None =>
                match search timeframe_pattern query with
                | Some m => timeframe (group_text 1 m) (group_text 2 m)
                | None => no_temporal
                end
            end
        end
    end in
  let location :=
    match search location_pattern query with
    | Some m => Some (group_text 1 m)
    | None => standalone_country (map fst COUNTRY_FUEL_DATA) (lower query)
    end in
  (temporal, location).

Definition month_names : list (string * string) :=
  [ ("jan", "01"); ("january", "01");
    ("feb", "02"); ("february", "02");
    ("mar", "03"); ("march", "03");
    ("apr", "04"); ("april", "04");
    ("may", "05");
    ("jun", "06"); ("june", "06");
    ("jul", "07"); ("july", "07");
    ("aug", "08"); ("august", "08");
    ("sep", "09"); ("september", "09");
    ("oct", "10"); ("october", "10");
    ("nov", "11"); ("november", "11");
    ("dec", "12"); ("december", "12") ].

Definition _normalize_date (date_str : string) : string :=
  let slashed :=
    if contains "/" date_str then
      match split "/" date_str with
      | [month; day; year] =>
          let year :=
            if (String.length year =? 2)%nat then "20" ++ year else year in
          Some (year ++ "-" ++ zfill2 month ++ "-" ++ zfill2 day)
      | _ => None
      end
    else None in
  match slashed with
  | Some iso => iso
  | None =>
      match search_ignorecase month_year_pattern date_str with
      | Some m =>
          let month_name := lower (group_text 1 m) in
          let year := group_text 2 m in
          match lookup month_name month_names with
          | Some mm => year ++ "-" ++ mm ++ "-01"
          | None => date_str
          end
      | None => date_str
      end
  end.

(** Lines 136-147: the end of a range given as a month and a year moves
    to the last day of that month. *)
Definition normalize_range_end (end_date : string) : result string :=
  let end_date_normalized := _normalize_date end_date in
  if endswith end_date_normalized "-01" &&
     (match search_ignorecase month_year_pattern end_date with
      | Some _ => true
      | None => false
      end)
  then
    match split "-" end_date_normalized with
    | year :: month :: _ =>
        y <- int_of_str year ;;
        mo <- int_of_str month ;;
        let last_day := days_in_month y mo in
        Ok (year ++ "-" ++ month ++ "-" ++ pad2 last_day)
    | _ => Raise ValueError
    end
  else Ok end_date_normalized.

(** Lines 165-174: the length of a time frame, in days. *)
Definition timeframe_delta (count : Z) (unit : string) : result Z :=
  if contains "day" unit then timedelta count
  else if contains "week" unit then timedelta (count * 7)
  else if contains "month" unit then timedelta (count * 30)
  else if contains "year" unit then timedelta (count * 365)
  else Raise TypeError.

(** Lines 182-191. *)
Definition normalize_location (location : string) : string :=
  let l := lower location in
  if existsb (String.eqb l) ["usa"; "united states"; "america"; "us"]
  then "usa"
  else if existsb (String.eqb l) ["uk"; "united kingdom"; "britain"; "england"]
  then "uk"
  else if existsb (String.eqb l) ["germany"; "deutschland"] then "germany"
  else location.

(** What [analyze_query] returns. *)
Record QueryAnalysis : Type := mkQueryAnalysis {
  intent : string;
  parameters : list (string * string);
  original_query : string
}.

(** The window that ends today and starts [n] days before. *)
Definition window (today : Py.date) (n : Z)
    (parameters : list (string * string)) : result (list (string * string)) :=
  let end_date := today in
  start_date <- date_sub end_date n ;;
  Ok (store "end_date" (isoformat end_date)
        (store "start_date" (isoformat start_date) parameters)).

Definition has_key (key : string) (d : list (string * string)) : bool :=
  match lookup key d with Some _ => true | None => false end.

Definition analyze_query (today : Py.date) (query : string)
  : result QueryAnalysis :=
  let intent := _identify_intent query in
  let '(temporal, location) := _extract_parameters query in
  let parameters :=
    match location with
    | Some l => [("location", l)]
    | None => []
    end in
  parameters <-
    match temporal with
    | date_range start_date end_date =>
        end_date_normalized <- normalize_range_end end_date ;;
        Ok (store "end_date" end_date_normalized
              (store "start_date" (_normalize_date start_date) parameters))
    | single_date date =>
        Ok (store "date" (_normalize_date date) parameters)
    | days_ago n =>
        days <- int_of_str n ;;
        delta <- timedelta days ;;
        window today delta parameters
    | timeframe count unit =>
        count <- int_of_str count ;;
        delta <- timeframe_delta count unit ;;
        window today delta parameters
    | no_temporal => Ok parameters
    end ;;
  let parameters :=
    match lookup "location" parameters with
    | Some l =>
        store "location" (normalize_location l) parameters
    | None => parameters
    end in
  parameters <-
    (if has_key "start_date" parameters || has_key "date" parameters
     then Ok parameters
     else window today 30 parameters) ;;
  Ok {| intent := intent; parameters := parameters;
        original_query := query |}.

(** ** DataFetcher *)

(** An entry of the series [DataFetcher] builds: the value is a float. *)
Record item : Type := mkItem {
  date : string;
  value : Q
}.

Definition _calculate_statistics (data : list item) : result (option Stats) :=
  if (List.length data <? 2)%nat then Ok None
  else
    let values := map value data in
    match values with
    | [] => Raise IndexError
    | first_price :: _ =>
        let last_price := last values first_price in
        r <- truediv (last_price - first_price) first_price ;;
        let percent_change := r * 100 in
        st <- stats_dict values first_price last_price percent_change ;;
        Ok (Some st)
    end.

(** [_compute_retail_price] (lines 329-356); [None] for a country that is
    not in the table. *)
Definition _compute_retail_price (brent_price_usd : Q) (country : string)
  : option RetailQuote :=
  match lookup country COUNTRY_FUEL_DATA with
  | None => None
  | Some cfg =>
      let price_local :=
        (brent_price_usd * price_factor cfg) / crude_conversion cfg in
      let price_local := price_local * (1 + tax_rate cfg / 100) in
      let price_local := price_local * (1 + vat cfg / 100) in
      Some {| price := round2 price_local;
              unit := price_unit cfg;
              country := local_name cfg;
              common_fuel := first_or_fuel (common_fuels cfg);
              retail_currency := currency cfg;
              retail_tax_rate := None;
              retail_vat := None |}
  end.

(** What the module reads from outside: the three keys of [API_KEYS], the
    HTTP collaborators, the draws of [random.uniform(-0.5, 0.5)] and the
    clock. *)
Record WeatherPayload : Type := mkWeatherPayload {
  wp_name : option string;
  wp_country : option string;
  wp_temp : option Q;
  wp_feels_like : option Q;
  wp_humidity : option Q;
  wp_description : option string;
  wp_dt : option Z
}.

Record World : Type := mkWorld {
  eia_key : string;
  openexchange_key : string;
  weather_key : string;
  eia_get : string -> string -> Data.http_outcome Data.eia_payload;
  oxr_get : string -> string -> Data.http_outcome Data.oxr_payload;
  weather_get : string -> Data.http_outcome WeatherPayload;
  uniform : nat -> Q;
  today : Py.date;
  now : Z
}.

(** What a fetch returns: one of the three dictionaries, or the one with
    the key ["error"]. *)
Inductive ErrorText : Type :=
| UnsupportedIntent
| Message (e : exn).

Inductive Fetched : Type :=
| OilPrices (data : list item) (stats : option Stats) (source : string)
            (parameters : list (string * string))
| FxRates (rates : list (string * Q)) (base : string)
          (timestamp : option Z) (source : string)
| Weather (location : string) (country : option string)
          (temperature feels_like humidity : option Q)
          (description : option string) (timestamp : option Z)
          (source : string)
| FetchError (error : ErrorText) (intent : string).

(** [stats["retail_price"] = retail; stats["fx_rate"] = usd_to_local]:
    item assignment, which [None] does not support. *)
Definition set_retail (stats : option Stats) (retail : RetailQuote)
    (usd_to_local : Q) : result (option Stats) :=
  match stats with
  | None => Raise TypeError
  | Some st =>
      Ok (Some {| min := min st; max := max st; mean := mean st;
                  median := median st; range := range st;
                  start_price := start_price st;
                  end_price := end_price st;
                  percent_change := percent_change st;
                  volatility := volatility st;
                  retail_price := Some retail;
                  fx_rate := Some usd_to_local |})
  end.

(** [data[-1]["value"]] *)
Definition latest_value (data : list item) : result Q :=
  match data with
  | [] => Raise IndexError
  | x :: _ => Ok (value (last data x))
  end.

(** The body of the loop of lines 451-459, for the index [i]. *)
Definition mock_oil_item (w : World) (start_date : Py.date) (i : nat)
  : result item :=
  current_date <- date_add start_date (Z.of_nat i) ;;
  let base_price := 80.0 in
  let price :=
    base_price + inject_Z (Z.of_nat i mod 10) * 0.1 + uniform w i in
  Ok {| date := isoformat current_date; value := round2 price |}.

Definition _generate_mock_oil_data (w : World)
    (parameters : list (string * string)) : result Fetched :=
  default_start <- date_sub (today w) 30 ;;
  start_date <-
    fromisoformat
      (McpTools.or_else (lookup "start_date" parameters)
         (isoformat default_start)) ;;
  end_date <-
    fromisoformat
      (McpTools.or_else (lookup "end_date" parameters)
         (isoformat (today w))) ;;
  let days := (days_between end_date start_date + 1)%Z in
  data <- Data.for_range (mock_oil_item w start_date) (Z.to_nat days) ;;
  stats <- _calculate_statistics data ;;
  stats <-
    match lookup "location" parameters with
    | None => Ok stats
    | Some country =>
        match lookup country COUNTRY_FUEL_DATA with
        | None => Ok stats
        | Some cfg =>
            latest_usd <- latest_value data ;;
            let usd_to_local :=
              if String.eqb (currency cfg) "EUR" then 0.92
              else if String.eqb (currency cfg) "GBP" then 0.79
              else 1.0 in
            match _compute_retail_price latest_usd country with
            | Some retail => set_retail stats retail usd_to_local
            | None => Ok stats
            end
        end
    end ;;
  Ok (OilPrices data stats "Mock data" parameters).

(** The loop of lines 531-534, from the index [i] on. *)
Fixpoint mock_rates (symbols : list string) (base : string) (i : nat)
    (rates : list (string * Q)) : list (string * Q) :=
  match symbols with
  | [] => rates
  | symbol :: rest =>
      mock_rates rest base (S i)
        (if String.eqb symbol base then rates
         else store symbol (1.0 + inject_Z (Z.of_nat i) * 0.1) rates)
  end.

Definition _generate_mock_fx_data (w : World)
    (parameters : list (string * string)) : Fetched :=
  let symbols :=
    split ","
      (McpTools.or_else (lookup "currencies" parameters)
         "EUR,USD,GBP,JPY,CAD") in
  let base := McpTools.or_else (lookup "base_currency" parameters) "USD" in
  FxRates (mock_rates symbols base O []) base (Some (now w)) "Mock data".

Definition _fetch_fx_rates (w : World)
    (parameters : list (string * string)) : Fetched :=
  if String.eqb (openexchange_key w) "" then _generate_mock_fx_data w parameters
  else
    let symbols :=
      McpTools.or_else (lookup "currencies" parameters)
        "EUR,USD,GBP,JPY,CAD" in
    let base := McpTools.or_else (lookup "base_currency" parameters) "USD" in
    match oxr_get w base symbols with
    | Data.Responds (Data.OxrRates rates) =>
        FxRates rates base None "Open Exchange Rates API"
    | _ => _generate_mock_fx_data w parameters
    end.

(** Lines 391-396: the items that have both keys, their value as a
    float. *)
Fixpoint transform (api_data : list Data.api_item) : result (list item) :=
  match api_data with
  | [] => Ok []
  | Data.ApiObject (Some p) (Some v) :: rest =>
      x <- match v with
           | Str s => float_of_str s
           | other => as_float other
           end ;;
      data <- transform rest ;;
      Ok ({| date := p; value := x |} :: data)
  | Data.ApiObject _ _ :: rest => transform rest
  | Data.ApiScalar :: _ => Raise TypeError
  end.

(** Lines 401-425 *)
Definition live_retail (w : World) (parameters : list (string * string))
    (transformed_data : list item) (stats : option Stats)
  : result (option Stats) :=
  match lookup "location" parameters with
  | None => Ok stats
  | Some country =>
      match lookup country COUNTRY_FUEL_DATA with
      | None => Ok stats
      | Some cfg =>
          latest_usd <- latest_value transformed_data ;;
          let target_currency := currency cfg in
          let usd_to_local :=
            if String.eqb target_currency "USD" then 1.0
            else
              match _fetch_fx_rates w [("currencies", target_currency)] with
              | FxRates rates _ _ _ =>
                  McpTools.or_else (lookup target_currency rates) 1.0
              | _ => 1.0
              end in
          match _compute_retail_price latest_usd country with
          | Some retail => set_retail stats retail usd_to_local
          | None => Ok stats
          end
      end
  end.

Definition _fetch_oil_prices (w : World)
    (parameters : list (string * string)) : result Fetched :=
  if String.eqb (eia_key w) "" then _generate_mock_oil_data w parameters
  else
    let start_date :=
      McpTools.or_else (lookup "start_date" parameters)
        (isoformat (today w)) in
    let end_date :=
      McpTools.or_else (lookup "end_date" parameters)
        (isoformat (today w)) in
    try_except
      (match eia_get w start_date end_date with
       | Data.Fails e => Raise e
       | Data.Responds Data.EiaUnexpected => Raise TypeError
       | Data.Responds (Data.EiaNoData _ _) =>
           _generate_mock_oil_data w parameters
       | Data.Responds (Data.EiaData api_data) =>
           transformed_data <- transform api_data ;;
           stats <- _calculate_statistics transformed_data ;;
           stats <- live_retail w parameters transformed_data stats ;;
           Ok (OilPrices transformed_data stats "EIA API" parameters)
       end)
      (fun _ => _generate_mock_oil_data w parameters).

Definition _generate_mock_weather_data (w : World)
    (parameters : list (string * string)) : Fetched :=
  let location := McpTools.or_else (lookup "location" parameters) "New York" in
  Weather location (Some "US") (Some 22.5) (Some 23.0) (Some 65)
          (Some "partly cloudy") (Some (now w)) "Mock data".

Definition _fetch_weather (w : World)
    (parameters : list (string * string)) : Fetched :=
  if String.eqb (weather_key w) "" then _generate_mock_weather_data w parameters
  else
    let location :=
      McpTools.or_else (lookup "location" parameters) "New York" in
    match weather_get w location with
    | Data.Responds d =>
        Weather (McpTools.or_else (wp_name d) location) (wp_country d)
                (wp_temp d) (wp_feels_like d) (wp_humidity d)
                (wp_description d) (wp_dt d) "OpenWeatherMap API"
    | Data.Fails _ => _generate_mock_weather_data w parameters
    end.

(** [fetch_data] (lines 305-327): whatever a fetch raises becomes the
    dictionary with the key ["error"]. *)
Definition fetch_data (w : World) (intent : string)
    (parameters : list (string * string)) : Fetched :=
  match
    (if String.eqb intent "oil_price" then _fetch_oil_prices w parameters
     else if String.eqb intent "fx_rates" then Ok (_fetch_fx_rates w parameters)
     else if String.eqb intent "weather" then Ok (_fetch_weather w parameters)
     else Ok (FetchError UnsupportedIntent intent))
  with
  | Ok d => d
  | Raise e => FetchError (Message e) intent
  end.

(** ** ResponseGenerator *)

(** Lines 677-685. *)
Definition trend_description (st : Stats) : string :=
  if gtb (percent_change st) 5 then "strongly upward"
  else if gtb (percent_change st) 1 then "moderately upward"
  else if ltb (percent_change st) (-5) then "strongly downward"
  else if ltb (percent_change st) (-1) then "moderately downward"
  else "stable".

Record Visualization : Type := mkVisualization {
  x_axis : list string;
  y_axis : list Q;
  title : string;
  chart_type : string
}.

(** The text of a response, kept as the template it is built from. *)
Inductive Text : Type :=
| SorryError (error : ErrorText)
| NotSure
| NoOilData
| OilTrend (source start_date end_date trend : string) (st : Stats)
           (latest_price : Q)
| OilLatest (source start_date end_date : string) (latest_price : Q)
| NoFxData
| FxList (source : string) (timestamp : option Z) (base : string)
         (rates : list (string * Q))
| NoWeatherData
| WeatherLine (source : string) (timestamp : option Z) (location : string)
              (country : option string) (description : option string)
              (temperature : Q) (feels_like humidity : option Q).

Inductive Payload : Type :=
| OilPayload (price_data : list item) (stats : option Stats)
             (visualization : Visualization)
| FxPayload (rates : list (string * Q)) (base : string)
            (timestamp : option Z) (visualization : Visualization)
| WeatherPayloadOut (location : string) (country : option string)
                    (temperature : Q) (feels_like humidity : option Q)
                    (description : option string) (timestamp : option Z).

Record Response : Type := mkResponse {
  text : Text;
  data : option Payload
}.

Definition _generate_oil_price_response (price_data : list item)
    (stats : option Stats) (source : string) : Response :=
  match price_data with
  | [] => {| text := NoOilData; data := None |}
  | first :: _ =>
      let start_date := date first in
      let end_date := date (last price_data first) in
      let latest_price := value (last price_data first) in
      {| text :=
           match stats with
           | Some st =>
               OilTrend source start_date end_date (trend_description st)
                        st latest_price
           | None => OilLatest source start_date end_date latest_price
           end;
         data := Some (OilPayload price_data stats
                   {| x_axis := map date price_data;
                      y_axis := map value price_data;
                      title := "Brent Crude Oil Prices";
                      chart_type := "line" |}) |}
  end.

Definition _generate_fx_rate_response (rates : list (string * Q))
    (base : string) (timestamp : option Z) (source : string) : Response :=
  match rates with
  | [] => {| text := NoFxData; data := None |}
  | _ =>
      {| text := FxList source timestamp base rates;
         data := Some (FxPayload rates base timestamp
                   {| x_axis := map fst rates;
                      y_axis := map snd rates;
                      title := "Exchange Rates vs " ++ base;
                      chart_type := "bar" |}) |}
  end.

Definition _generate_weather_response (location : string)
    (country : option string) (temperature feels_like humidity : option Q)
    (description : option string) (timestamp : option Z) (source : string)
  : Response :=
  match location, temperature with
  | String _ _, Some t =>
      {| text := WeatherLine source timestamp location country description
                             t feels_like humidity;
         data := Some (WeatherPayloadOut location country t feels_like
                         humidity description timestamp) |}
  | _, _ => {| text := NoWeatherData; data := None |}
  end.

Definition generate_response (query_analysis : QueryAnalysis)
    (fetched : Fetched) : Response :=
  match fetched with
  | FetchError error _ => {| text := SorryError error; data := None |}
  | OilPrices price_data stats source _ =>
      if String.eqb (intent query_analysis) "oil_price"
      then _generate_oil_price_response price_data stats source
      else {| text := NotSure; data := None |}
  | FxRates rates base timestamp source =>
      if String.eqb (intent query_analysis) "fx_rates"
      then _generate_fx_rate_response rates base timestamp source
      else {| text := NotSure; data := None |}
  | Weather location country temperature feels_like humidity description
            timestamp source =>
      if String.eqb (intent query_analysis) "weather"
      then _generate_weather_response location country temperature
             feels_like humidity description timestamp source
      else {| text := NotSure; data := None |}
  end.

(** ** DynamicDataModel *)

Record Output : Type := mkOutput {
  query : string;
  analysis : QueryAnalysis;
  response : Response
}.

Definition process_query (w : World) (query : string) : result Output :=
  query_analysis <- analyze_query (today w) query ;;
  let fetched :=
    fetch_data w (intent query_analysis) (parameters query_analysis) in
  let response := generate_response query_analysis fetched in
  Ok {| query := query; analysis := query_analysis; response := response |}.

End App.

(* ================================================================== *)
(** * Vocabulary of the statements                                    *)
(* ================================================================== *)

Module Spec.
Import Py Dicts.

(** Every element of [xs] lies between [lo] and [hi]. *)
Definition bounded (lo hi : Q) (xs : list Q) : Prop :=
  forall x, In x xs -> lo <= x /\ x <= hi.

(** An item whose value the coercion loop of [analyze_price_data] keeps as
    the float [q]: a number, or a string that reads as one. *)
Definition numeric_item (it : Data.item) (q : Q) : Prop :=
  Data.value it = Float q \/
  exists s, Data.value it = Str s /\ float_of_str s = Ok q.

(** A string entry that is no numeral. *)
Definition unreadable_item (it : Data.item) : Prop :=
  exists s, Data.value it = Str s /\ float_of_str s = Raise ValueError.


(** The sign of a rational: -1, 0 or 1. *)
Definition sign (q : Q) : Z := Z.sgn (Qnum q).


(** The trend bucket of a percent change, as the specification lists
    them. *)
Inductive bucket (pc : Q) : string -> Prop :=
| strongly_upward : 5 < pc -> bucket pc "strongly upward"
| moderately_upward : 1 < pc -> pc <= 5 -> bucket pc "moderately upward"
| strongly_downward : pc < -5 -> bucket pc "strongly downward"
| moderately_downward :
    -5 <= pc -> pc < -1 -> bucket pc "moderately downward"
| relatively_stable : -1 <= pc -> pc <= 1 -> bucket pc "relatively stable".

(** The zero-based position [i] is the last one at which [s] occurs in
    [symbols]. *)
Definition last_position (symbols : list string) (s : string) (i : nat)
  : Prop :=
  nth_error symbols i = Some s /\
  forall j, (i < j)%nat -> nth_error symbols j <> Some s.

(** The location of the parameters is a country of the table. *)
Definition supported_location (parameters : list (string * string)) : Prop :=
  exists country cfg,
    lookup "location" parameters = Some country /\
    lookup country App.COUNTRY_FUEL_DATA = Some cfg.

(** The check of one day of one month, and of all of them. *)
Definition month_day_ok (leapyear : bool) (m dd : Z) : bool :=
  let dim := if (m =? 2)%Z && leapyear then 29%Z
             else nth (month_index m) DAYS_IN_MONTH 0%Z in
  let dbm := (nth (month_index m) DAYS_BEFORE_MONTH 0
              + (if (2 <? m)%Z && leapyear then 1 else 0))%Z in
  implb (dd <=? dim)%Z
    (let '(m', dd') := month_day leapyear (dbm + dd - 1) in
     (m' =? m)%Z && (dd' =? dd)%Z).

Definition all_days_ok (leapyear : bool) : bool :=
  forallb (fun m =>
    forallb (fun dd => month_day_ok leapyear (Z.of_nat m) (Z.of_nat dd))
      (seq 1 31)) (seq 1 12).

(** The rate the synthetic generators give to the position [i]. *)
Definition rate_at (i : nat) : Q := 1.0 + inject_Z (Z.of_nat i) * 0.1.

(** No digit follows: [rest] is empty or starts with something else. *)
Definition no_digit_ahead (rest : string) : Prop :=
  match rest with
  | String c _ => is_digit c = false
  | EmptyString => True
  end.

End Spec.

(* ================================================================== *)
(** * Worlds and series for the examples                              *)
(* ================================================================== *)

Module Examples.
Import Py Dicts.


(** app.py without keys and without collaborators. *)
Definition quiet_world : App.World :=
  {| App.eia_key := ""; App.openexchange_key := ""; App.weather_key := "";
     App.eia_get := fun _ _ => Data.Fails RequestError;
     App.oxr_get := fun _ _ => Data.Fails RequestError;
     App.weather_get := fun _ => Data.Fails RequestError;
     App.uniform := fun i => if Nat.even i then 0.25 else -0.125;
     App.today := mkDate 2024 5 31;
     App.now := 1717156800 |}.

(** data.py without keys and without collaborators. *)
Definition offline : Data.World :=
  {| Data.EIA_KEY := None; Data.OXR_KEY := None;
     Data.eia_get := fun _ _ => Data.Fails RequestError;
     Data.oxr_get := fun _ _ => Data.Fails RequestError;
     Data.uniform := fun i => if Nat.even i then 0.25 else -0.125;
     Data.today := mkDate 2024 5 31;
     Data.now := 1717156800 |}.


(** No key for the language model. *)
Definition no_llm : McpTools.Llm :=
  {| McpTools.OPENROUTER_API_KEY := "";
     McpTools.chat_parse := fun _ => Data.Fails RequestError;
     McpTools.chat_answer := fun _ => Data.Fails RequestError |}.


(** data.py with a key for the prices, and a collaborator that answers
    with six points. *)
Definition live_six_prices : Data.World :=
  {| Data.EIA_KEY := Some "key"; Data.OXR_KEY := None;
     Data.eia_get := fun _ _ =>
       Data.Responds (Data.EiaData
         [ Data.ApiObject (Some "2024-05-01") (Some (Str "80.1"));
           Data.ApiObject (Some "2024-05-02") (Some (Str "80.4"));
           Data.ApiObject (Some "2024-05-03") (Some (Str "81.3"));
           Data.ApiObject (Some "2024-05-04") (Some (Str "81.0"));
           Data.ApiObject (Some "2024-05-05") (Some (Str "80.7"));
           Data.ApiObject (Some "2024-05-06") (Some (Str "82.2")) ]);
     Data.oxr_get := fun _ _ => Data.Fails RequestError;
     Data.uniform := fun _ => 0;
     Data.today := mkDate 2024 5 31;
     Data.now := 1717156800 |}.

(** A language model that parses every question as one about the oil
    price of the first week of May 2024, and fails to answer. *)
Definition parsing_llm : McpTools.Llm :=
  {| McpTools.OPENROUTER_API_KEY := "key";
     McpTools.chat_parse := fun _ =>
       Data.Responds (Some
         {| McpTools.j_intent := Some "oil_price";
            McpTools.j_date_range := Some ("2024-05-01", "2024-05-06");
            McpTools.j_country_code := None;
            McpTools.j_currency := None;
            McpTools.j_refined_question := None |});
     McpTools.chat_answer := fun _ => Data.Fails RequestError |}.

End Examples.

(* ================================================================== *)
(** * Properties                                                      *)
(* ================================================================== *)

Import Py Dicts Spec Examples.

(** ** Tactics *)

(** Linear arithmetic with divisions by constants. *)
Ltac divmod := Z.div_mod_to_equations; lia.

(** Looks up the closed entries of the month tables. *)
Ltac table :=
  repeat match goal with
    | |- context [nth ?i ?l ?d] =>
        let v := eval vm_compute in (nth i l d) in
        change (nth i l d) with v
    | H : context [nth ?i ?l ?d] |- _ =>
        let v := eval vm_compute in (nth i l d) in
        change (nth i l d) with v in H
    | |- context [Z.ltb ?a ?b] =>
        let v := eval vm_compute in (Z.ltb a b) in
        change (Z.ltb a b) with v
    | H : context [Z.eqb ?a ?b] |- _ =>
        let v := eval vm_compute in (Z.eqb a b) in
        change (Z.eqb a b) with v in H
    end.

(** ** Facts about the runtime *)

Section RuntimeFacts.

Lemma ltb_lt (a b : Q) : ltb a b = true <-> a < b.
Proof.
  unfold ltb. rewrite negb_true_iff. split.
  - intro H. apply Qnot_le_lt. intro Hle.
    apply Qle_bool_iff in Hle. congruence.
  - intro H. destruct (Qle_bool b a) eqn:E; [|reflexivity].
    apply Qle_bool_iff in E. exfalso. exact (Qlt_not_le _ _ H E).
Qed.

Lemma ltb_ge (a b : Q) : ltb a b = false <-> b <= a.
Proof.
  unfold ltb. rewrite negb_false_iff. apply Qle_bool_iff.
Qed.

Lemma gtb_gt (a b : Q) : gtb a b = true <-> b < a.
Proof. unfold gtb. apply ltb_lt. Qed.

Lemma gtb_le (a b : Q) : gtb a b = false <-> a <= b.
Proof. unfold gtb. apply ltb_ge. Qed.












Lemma insert_perm (x : Q) (l : list Q) : Permutation (insert x l) (x :: l).
Proof.
  induction l as [|y l IH]; simpl.
  - apply Permutation_refl.
  - destruct (Qle_bool x y).
    + apply Permutation_refl.
    + eapply Permutation_trans; [apply perm_skip, IH|]. apply perm_swap.
Qed.

Lemma sorted_perm (xs : list Q) : Permutation (sorted xs) xs.
Proof.
  induction xs as [|x xs IH]; simpl.
  - apply perm_nil.
  - eapply Permutation_trans; [apply insert_perm|]. apply perm_skip, IH.
Qed.



End RuntimeFacts.

(** ** Facts about rounding *)

Section RoundingFacts.

Lemma Qfloor_nonneg (q : Q) : 0 <= q -> (0 <= Qfloor q)%Z.
Proof.
  intro H. change 0%Z with (Qfloor 0). apply Qfloor_resp_le, H.
Qed.





(** The rounded value is within half a unit of the exact one. *)
Lemma round_half_even_close (q : Q) :
  inject_Z (round_half_even q) - (1 # 2) <= q /\
  q <= inject_Z (round_half_even q) + (1 # 2).
Proof.
  pose proof (Qfloor_le q) as Hlo.
  pose proof (Qlt_floor q) as Hhi.
  rewrite inject_Z_plus in Hhi. change (inject_Z 1) with 1 in Hhi.
  unfold round_half_even.
  destruct (Qcompare (q - inject_Z (Qfloor q)) (1 # 2)) eqn:E.
  - apply Qeq_alt in E.
    destruct (Z.even (Qfloor q)).
    + split; lra.
    + rewrite inject_Z_plus. change (inject_Z 1) with 1. split; lra.
  - apply Qlt_alt in E. split; lra.
  - apply Qgt_alt in E. rewrite inject_Z_plus. change (inject_Z 1) with 1.
    split; lra.
Qed.

Lemma round2_close (x : Q) :
  round2 x - (1 # 200) <= x /\ x <= round2 x + (1 # 200).
Proof.
  destruct (round_half_even_close (x * 100)) as [H1 H2].
  unfold round2.
  set (k := inject_Z (round_half_even (x * 100))) in *.
  assert (Hk : k / 100 == k * (1 # 100)) by (unfold Qdiv; reflexivity).
  rewrite Hk. split; lra.
Qed.



(** [Z.sqrt (Qfloor w)] is the whole part of the square root of [w]. *)
Lemma sqrt_floor_bounds (w : Q) :
  0 <= w ->
  let n := inject_Z (Z.sqrt (Qfloor w)) in
  0 <= n /\ n * n <= w /\ w < (n + 1) * (n + 1).
Proof.
  intros Hw n.
  pose proof (Qfloor_nonneg w Hw) as Hf.
  pose proof (Z.sqrt_spec (Qfloor w) Hf) as [S1 S2].
  pose proof (Z.sqrt_nonneg (Qfloor w)) as S0.
  pose proof (Qfloor_le w) as F1.
  pose proof (Qlt_floor w) as F2.
  set (k := Z.sqrt (Qfloor w)) in *.
  assert (N0 : 0 <= n).
  { unfold n. change 0 with (inject_Z 0). rewrite <- Zle_Qle. exact S0. }
  split; [exact N0|]. split.
  - apply Qle_trans with (inject_Z (Qfloor w)); [|exact F1].
    unfold n. rewrite <- inject_Z_mult, <- Zle_Qle. exact S1.
  - apply Qlt_le_trans with (inject_Z (Qfloor w + 1)); [exact F2|].
    assert (E : (n + 1) * (n + 1) == inject_Z (Z.succ k * Z.succ k)).
    { unfold n, Z.succ. rewrite inject_Z_mult, inject_Z_plus. reflexivity. }
    rewrite E, <- Zle_Qle. lia.
Qed.

(** What [round_sqrt_hundredths] gives is a whole number nearest to the
    square root of [v * 10000]: the root lies within a half of it. *)
Lemma round_sqrt_hundredths_nearest (v : Q) :
  0 <= v ->
  let w := v * 10000 in
  let r := inject_Z (round_sqrt_hundredths v) in
  0 <= r /\
  w <= (r + (1 # 2)) * (r + (1 # 2)) /\
  (r == 0 \/ (r - (1 # 2)) * (r - (1 # 2)) <= w).
Proof.
  intros Hv w r.
  assert (Hw : 0 <= w) by (unfold w; lra).
  destruct (sqrt_floor_bounds w Hw) as (N0 & N1 & N2).
  unfold r, round_sqrt_hundredths. fold w.
  set (n := inject_Z (Z.sqrt (Qfloor w))) in *.
  destruct (Qcompare w ((n + (1 # 2)) * (n + (1 # 2)))) eqn:C.
  - apply Qeq_alt in C.
    destruct (Z.even _).
    + fold n. split; [exact N0|]. split; [lra|].
      destruct (Qlt_le_dec 0 n) as [P|P]; [right; nra|left; lra].
    + rewrite inject_Z_plus. fold n. change (inject_Z 1) with 1.
      split; [lra|]. split; [nra|]. right. nra.
  - apply Qlt_alt in C. fold n. split; [exact N0|]. split; [lra|].
    destruct (Qlt_le_dec 0 n) as [P|P]; [right|left; lra].
    assert (H1 : 1 <= n).
    { unfold n in *. change 1 with (inject_Z 1). rewrite <- Zle_Qle.
      change 0 with (inject_Z 0) in P. rewrite <- Zlt_Qlt in P. lia. }
    nra.
  - apply Qgt_alt in C. rewrite inject_Z_plus. fold n.
    change (inject_Z 1) with 1.
    split; [lra|]. split; [nra|]. right. nra.
Qed.

End RoundingFacts.

(** ** The statistics of a series *)

Section Statistics.
Import Data McpTools.

Lemma numeric_values_floats (oil_data : list item) (qs : list Q) :
  Forall2 numeric_item oil_data qs ->
  numeric_values oil_data = map Float qs.
Proof.
  induction 1 as [|it q data qs Hit _ IH]; simpl; [reflexivity|].
  destruct Hit as [E|[s [E P]]]; rewrite E; [|rewrite P]; now rewrite IH.
Qed.

Lemma floats_map_Float (qs : list Q) : floats (map Float qs) = Ok qs.
Proof.
  induction qs as [|q qs IH]; simpl; [reflexivity|]. now rewrite IH.
Qed.

Lemma floats_inv (vs : list obj) (qs : list Q) :
  floats vs = Ok qs -> vs = map Float qs.
Proof.
  revert qs. induction vs as [|v vs IH]; simpl; intros qs H.
  - injection H as <-. reflexivity.
  - destruct v; try discriminate.
    destruct (floats vs) as [qs'|] eqn:E; simpl in H; [|discriminate].
    injection H as <-. simpl. now rewrite (IH qs' eq_refl).
Qed.

Lemma last_map_Float (qs : list Q) (d : Q) :
  last (map Float qs) (Float d) = Float (last qs d).
Proof.
  induction qs as [|q qs IH]; [reflexivity|].
  destruct qs as [|q' qs]; [reflexivity|].
  change (last (map Float (q' :: qs)) (Float d)
          = Float (last (q' :: qs) d)). exact IH.
Qed.


Lemma truediv_ok (a b : Q) : ~ b == 0 -> truediv a b = Ok (a / b).
Proof.
  intro Hb. unfold truediv. destruct (Qeq_bool b 0) eqn:E; [|reflexivity].
  apply Qeq_bool_iff in E. contradiction.
Qed.

(** What a statistics dictionary holds, entry by entry. *)
Lemma stats_dict_inv (xs : list Q) (f l pc : Q) (st : Stats) :
  stats_dict xs f l pc = Ok st ->
  Py.min xs = Ok (min st) /\ Py.max xs = Ok (max st) /\
  Py.mean xs = Ok (mean st) /\ Py.median xs = Ok (median st) /\
  range st = max st - min st /\
  start_price st = f /\ end_price st = l /\
  percent_change st = round2 pc /\
  (if (1 <? List.length xs)%nat
   then stdev_round2 xs else Ok 0) = Ok (volatility st).
Proof.
  unfold stats_dict.
  destruct (Py.min xs) as [lo|]; simpl; [|discriminate].
  destruct (Py.max xs) as [hi|]; simpl; [|discriminate].
  destruct (Py.mean xs) as [avg|]; simpl; [|discriminate].
  destruct (Py.median xs) as [med|]; simpl; [|discriminate].
  destruct (if (1 <? List.length xs)%nat then stdev_round2 xs else Ok 0)
    as [vol|]; simpl; [|discriminate].
  intro H. injection H as <-. simpl. repeat split; reflexivity.
Qed.

(** On a non-empty list of floats the dictionary is always built. *)
Lemma stats_dict_returns (xs : list Q) (f l pc : Q) :
  xs <> [] -> exists st, stats_dict xs f l pc = Ok st.
Proof.
  intro Hne. unfold stats_dict.
  destruct xs as [|x xs]; [contradiction|].
  cbn [Py.min Py.max Py.mean bind].
  assert (Hmed : exists med, Py.median (x :: xs) = Ok med).
  { unfold Py.median.
    assert (Hlen : List.length (sorted (x :: xs)) = S (List.length xs)).
    { rewrite (Permutation_length (sorted_perm (x :: xs))). reflexivity. }
    rewrite Hlen. destruct (Nat.even _); eexists; reflexivity. }
  destruct Hmed as [med ->]. cbn [bind].
  destruct xs as [|y ys]; cbn -[round2 round2_sqrt sum len];
    eexists; reflexivity.
Qed.




End Statistics.

Section AnalyzePriceData.
Import Data McpTools.

Lemma as_float_inv (o : obj) (q : Q) : as_float o = Ok q -> o = Float q.
Proof. destruct o; simpl; intro H; try discriminate. now injection H as <-. Qed.

(** How [analyze_price_data] arrives at a statistics dictionary. *)
Lemma analyze_inv (oil_data : list item) (a : Analysis) (st : Stats) :
  analyze_price_data oil_data = Ok a -> stats a = Some st ->
  exists (f : Q) (xs : list Q) (r : Q),
    (2 <= List.length oil_data)%nat /\
    numeric_values oil_data = map Float (f :: xs) /\
    truediv (last (f :: xs) f - f) f = Ok r /\
    stats_dict (f :: xs) f (last (f :: xs) f) (r * 100) = Ok st /\
    trend a = trend_of (r * 100).
Proof.
  unfold analyze_price_data.
  destruct (List.length oil_data <? 2)%nat eqn:Hlen.
  { intros H Hs. injection H as <-. discriminate. }
  apply Nat.ltb_ge in Hlen.
  destruct (numeric_values oil_data) as [|v vs] eqn:Hv.
  { intros H Hs. injection H as <-. discriminate. }
  destruct (as_float (last (v :: vs) v)) as [l|] eqn:Hl; [|discriminate].
  destruct (as_float v) as [f|] eqn:Hf; [|discriminate].
  cbn [bind].
  destruct (truediv (l - f) f) as [r|] eqn:Hr; [|discriminate].
  cbn [bind].
  destruct (floats (v :: vs)) as [qs|] eqn:Hq; [|discriminate].
  cbn [bind].
  destruct (stats_dict qs f l (r * 100)) as [st'|] eqn:Hst; [|discriminate].
  cbn [bind]. intros H Hs. injection H as <-. simpl in Hs.
  injection Hs as ->.
  apply as_float_inv in Hf. subst v.
  apply floats_inv in Hq.
  destruct qs as [|q qs]; [discriminate|].
  simpl in Hq. injection Hq as Hq1 Hq2. subst q.
  assert (Hl' : l = last (f :: qs) f).
  { apply as_float_inv in Hl.
    change (Float f :: vs) with (map Float [f] ++ vs)%list in Hl.
    rewrite Hq2 in Hl. simpl app in Hl.
    change (Float f :: map Float qs) with (map Float (f :: qs)) in Hl.
    rewrite last_map_Float in Hl. now injection Hl as <-. }
  subst l. exists f, qs, r. rewrite Hq2. repeat split; try assumption.
Qed.

(** On a series of at least two numeric items whose first price is not
    zero, the analysis returns, with the percent change of the window. *)
Lemma analyze_numeric (oil_data : list item) (f : Q) (xs : list Q) :
  Forall2 numeric_item oil_data (f :: xs) ->
  (2 <= List.length oil_data)%nat ->
  ~ f == 0 ->
  exists st,
    analyze_price_data oil_data =
      Ok {| trend := trend_of ((last (f :: xs) f - f) / f * 100);
            stats := Some st |} /\
    stats_dict (f :: xs) f (last (f :: xs) f)
               ((last (f :: xs) f - f) / f * 100) = Ok st.
Proof.
  intros Hnum Hlen Hf.
  unfold analyze_price_data.
  apply Nat.ltb_ge in Hlen. rewrite Hlen.
  rewrite (numeric_values_floats _ _ Hnum).
  cbn [map]. change (Float f :: map Float xs) with (map Float (f :: xs)).
  rewrite last_map_Float. cbn [as_float bind].
  rewrite (truediv_ok _ _ Hf). cbn [bind].
  rewrite floats_map_Float. cbn [bind].
  destruct (stats_dict_returns (f :: xs) f (last (f :: xs) f)
              ((last (f :: xs) f - f) / f * 100)) as [st Hst];
    [discriminate|].
  rewrite Hst. cbn [bind]. exists st. split; reflexivity.
Qed.

End AnalyzePriceData.

(** ** The trend of a series (C2) *)

Section Trend.
Import Data McpTools.

Lemma trend_of_bucket (pc : Q) : bucket pc (trend_of pc).
Proof.
  unfold trend_of.
  destruct (gtb pc 5) eqn:G5; [apply gtb_gt in G5 | apply gtb_le in G5].
  { now apply strongly_upward. }
  destruct (gtb pc 1) eqn:G1; [apply gtb_gt in G1 | apply gtb_le in G1].
  { now apply moderately_upward. }
  destruct (ltb pc (-5)) eqn:L5; [apply ltb_lt in L5 | apply ltb_ge in L5].
  { now apply strongly_downward. }
  destruct (ltb pc (-1)) eqn:L1; [apply ltb_lt in L1 | apply ltb_ge in L1].
  { now apply moderately_downward. }
  now apply relatively_stable.
Qed.


(** The response template of app.py applies the same thresholds to the
    percent change of the statistics, which is the rounded one, and calls
    the last bucket ["stable"]. *)
Lemma trend_description_bucket (st : Stats) :
  let pc := percent_change st in
  (-1 <= pc /\ pc <= 1 /\ App.trend_description st = "stable") \/
  (~ (-1 <= pc /\ pc <= 1) /\ bucket pc (App.trend_description st)).
Proof.
  intro pc. unfold App.trend_description. fold pc.
  destruct (gtb pc 5) eqn:G5; [apply gtb_gt in G5 | apply gtb_le in G5].
  { right. split; [lra|now apply strongly_upward]. }
  destruct (gtb pc 1) eqn:G1; [apply gtb_gt in G1 | apply gtb_le in G1].
  { right. split; [lra|now apply moderately_upward]. }
  destruct (ltb pc (-5)) eqn:L5; [apply ltb_lt in L5 | apply ltb_ge in L5].
  { right. split; [lra|now apply strongly_downward]. }
  destruct (ltb pc (-1)) eqn:L1; [apply ltb_lt in L1 | apply ltb_ge in L1].
  { right. split; [lra|now apply moderately_downward]. }
  left. repeat split; assumption.
Qed.



End Trend.

(** ** The statistics of a series (C3) *)

Section SeriesStatistics.
Import Data McpTools.






End SeriesStatistics.

(** ** Too little data (C6) *)

Section InsufficientData.
Import Data McpTools.


Lemma numeric_values_unreadable (data : list item) :
  Forall unreadable_item data -> numeric_values data = [].
Proof.
  induction 1 as [|it data (s & Hv & Hs) _ IH]; [reflexivity|].
  simpl. now rewrite Hv, Hs.
Qed.




End InsufficientData.

(** ** The retail price (C1) *)

Section RetailPrice.

(** The two copies of the country table are the same. *)
Lemma country_tables_agree :
  App.COUNTRY_FUEL_DATA = McpTools.COUNTRY_FUEL_DATA.
Proof. reflexivity. Qed.





End RetailPrice.

(** ** The synthetic exchange rates (C7) *)

Section MockRates.

Lemma lookup_store_same {A : Type} (k : string) (v : A)
    (d : list (string * A)) :
  lookup k (store k v d) = Some v.
Proof.
  induction d as [|[k' w] d IH]; simpl.
  - now rewrite String.eqb_refl.
  - destruct (String.eqb k' k) eqn:E; simpl; rewrite E; [reflexivity|exact IH].
Qed.

Lemma lookup_store_other {A : Type} (k k' : string) (v : A)
    (d : list (string * A)) :
  k' <> k -> lookup k' (store k v d) = lookup k' d.
Proof.
  intro Hne. induction d as [|[k0 w] d IH]; simpl.
  - destruct (String.eqb k k') eqn:E; [|reflexivity].
    apply String.eqb_eq in E. congruence.
  - destruct (String.eqb k0 k) eqn:E; simpl.
    + apply String.eqb_eq in E. subst k0.
      destruct (String.eqb k k') eqn:E'; [|reflexivity].
      apply String.eqb_eq in E'. congruence.
    + destruct (String.eqb k0 k'); [reflexivity|exact IH].
Qed.

(** A symbol that does not occur keeps what the dictionary had for it. *)
Lemma data_mock_rates_absent (symbols : list string) (s : string) :
  forall i acc, ~ In s symbols ->
    lookup s (Data.mock_rates symbols i acc) = lookup s acc.
Proof.
  induction symbols as [|x symbols IH]; intros i acc Hn; simpl.
  - reflexivity.
  - rewrite IH by (intro; apply Hn; now right).
    apply lookup_store_other. intro E. apply Hn. now left.
Qed.

Lemma data_mock_rates_last (symbols : list string) (s : string) :
  forall n i acc, last_position symbols s n ->
    lookup s (Data.mock_rates symbols i acc) = Some (rate_at (i + n)).
Proof.
  induction symbols as [|x symbols IH]; intros n i acc [Hn Hlast].
  - destruct n; discriminate.
  - simpl. destruct n as [|n].
    + simpl in Hn. injection Hn as ->.
      rewrite data_mock_rates_absent.
      * rewrite lookup_store_same. now rewrite Nat.add_0_r.
      * intro Hin. apply In_nth_error in Hin. destruct Hin as [j Hj].
        apply (Hlast (S j)); [lia|exact Hj].
    + rewrite (IH n (S i)).
      * f_equal. f_equal. lia.
      * split; [exact Hn|].
        intros j Hj. apply (Hlast (S j)). lia.
Qed.

Lemma app_mock_rates_absent (symbols : list string) (base s : string) :
  forall i acc, ~ In s symbols \/ s = base ->
    lookup s (App.mock_rates symbols base i acc) = lookup s acc.
Proof.
  induction symbols as [|x symbols IH]; intros i acc Hn; simpl.
  - reflexivity.
  - rewrite IH.
    + destruct (String.eqb x base) eqn:E; [reflexivity|].
      apply lookup_store_other. intro Hx. subst x.
      destruct Hn as [Hn|Hn].
      * apply Hn. now left.
      * subst s. now rewrite String.eqb_refl in E.
    + destruct Hn as [Hn|Hn]; [left|now right].
      intro Hin. apply Hn. now right.
Qed.

Lemma app_mock_rates_last (symbols : list string) (base s : string) :
  s <> base ->
  forall n i acc, last_position symbols s n ->
    lookup s (App.mock_rates symbols base i acc) = Some (rate_at (i + n)).
Proof.
  intro Hb.
  induction symbols as [|x symbols IH]; intros n i acc [Hn Hlast].
  - destruct n; discriminate.
  - simpl. destruct n as [|n].
    + simpl in Hn. injection Hn as ->.
      rewrite app_mock_rates_absent.
      * destruct (String.eqb s base) eqn:E.
        { apply String.eqb_eq in E. contradiction. }
        rewrite lookup_store_same. now rewrite Nat.add_0_r.
      * left. intro Hin. apply In_nth_error in Hin. destruct Hin as [j Hj].
        apply (Hlast (S j)); [lia|exact Hj].
    + rewrite (IH n (S i)).
      * f_equal. f_equal. lia.
      * split; [exact Hn|].
        intros j Hj. apply (Hlast (S j)). lia.
Qed.

(** C7, as the code has it.  In app.py every requested symbol other than
    the base gets the rate [1.0 + 0.1 * i], [i] being the zero-based
    position of its last occurrence in the request, and the base gets no
    rate.  In data.py there is no base: every requested symbol, USD
    included, gets the rate of the position of its last occurrence. *)
Theorem mock_fx_rates_by_position :
  (forall w parameters rates base timestamp source,
     App._generate_mock_fx_data w parameters =
       App.FxRates rates base timestamp source ->
     let symbols :=
       split "," (McpTools.or_else (lookup "currencies" parameters)
                    "EUR,USD,GBP,JPY,CAD") in
     base = McpTools.or_else (lookup "base_currency" parameters) "USD" /\
     lookup base rates = None /\
     (forall s i, s <> base -> last_position symbols s i ->
        lookup s rates = Some (1.0 + inject_Z (Z.of_nat i) * 0.1)) /\
     (forall s, ~ In s symbols -> lookup s rates = None)) /\
  (forall symbols s i,
     last_position (split "," symbols) s i ->
     lookup s (Data.generate_mock_fx_data symbols) =
       Some (1.0 + inject_Z (Z.of_nat i) * 0.1)) /\
  (forall symbols s,
     ~ In s (split "," symbols) ->
     lookup s (Data.generate_mock_fx_data symbols) = None).
Proof.
  split; [|split].
  - intros w parameters rates base timestamp source H symbols.
    unfold App._generate_mock_fx_data in H. injection H as <- <- _ _.
    fold symbols. repeat split.
    + apply app_mock_rates_absent. now right.
    + intros s i Hs Hl.
      rewrite (app_mock_rates_last symbols _ s Hs i 0 [] Hl). reflexivity.
    + intros s Hs. rewrite app_mock_rates_absent; [reflexivity|now left].
  - intros symbols s i Hl. unfold Data.generate_mock_fx_data.
    rewrite (data_mock_rates_last _ s i 0 [] Hl). reflexivity.
  - intros symbols s Hs. unfold Data.generate_mock_fx_data.
    now rewrite data_mock_rates_absent.
Qed.

Lemma mock_fx_rates_by_position_witness :
  exists rates,
    App._generate_mock_fx_data quiet_world [("currencies", "EUR,USD,GBP,EUR")]
      = App.FxRates rates "USD" (Some 1717156800%Z) "Mock data" /\
    lookup "USD" rates = None /\
    lookup "GBP" rates = Some (1.0 + 2 * 0.1) /\
    lookup "EUR" rates = Some (1.0 + 3 * 0.1) /\
    lookup "JPY" rates = None.
Proof.
  destruct mock_fx_rates_by_position as [H _].
  eexists. split; [reflexivity|].
  destruct (H quiet_world [("currencies", "EUR,USD,GBP,EUR")] _ _ _ _ eq_refl)
    as (_ & Hbase & Hpos & Habs).
  split; [exact Hbase|]. split; [|split].
  - apply (Hpos "GBP" 2%nat); [discriminate|].
    split; [reflexivity|]. intros [|[|[|[|[|j]]]]] Hj; try lia; discriminate.
  - apply (Hpos "EUR" 3%nat); [discriminate|].
    split; [reflexivity|]. intros [|[|[|[|[|j]]]]] Hj; try lia; discriminate.
  - apply Habs. simpl. intros [H0|[H0|[H0|[H0|[]]]]]; discriminate.
Defined.

(** In data.py the base currency gets a rate like any other symbol, and a
    symbol requested twice gets the rate of its last position. *)
Lemma base_rate_counterexample :
  Data.generate_mock_fx_data "EUR,USD" = [("EUR", 1.0 + 0 * 0.1);
                                          ("USD", 1.0 + 1 * 0.1)] /\
  lookup "USD" (Data.generate_mock_fx_data "EUR,USD") <> None /\
  (exists r, lookup "EUR" (Data.generate_mock_fx_data "EUR,GBP,EUR") = Some r
             /\ r == 1.2 /\ ~ r == 1.0).
Proof.
  split; [reflexivity|]. split; [discriminate|].
  eexists. split; [reflexivity|]. split; [reflexivity|]. discriminate.
Qed.

End MockRates.

(** ** Calendar facts *)

Section Calendar.

Lemma is_leap_cases (y : Z) :
  (is_leap y = true /\
   (y mod 4 = 0 /\ (y mod 100 <> 0 \/ y mod 400 = 0))%Z) \/
  (is_leap y = false /\
   (y mod 4 <> 0 \/ (y mod 100 = 0 /\ y mod 400 <> 0))%Z).
Proof.
  unfold is_leap.
  destruct (Z.eqb_spec (y mod 4) 0); destruct (Z.eqb_spec (y mod 100) 0);
    destruct (Z.eqb_spec (y mod 400) 0); simpl; intuition lia.
Qed.

Lemma days_before_next_year (y : Z) :
  (days_before_year (y + 1) =
   days_before_year y + 365 + (if is_leap y then 1 else 0))%Z.
Proof.
  unfold days_before_year.
  replace (y + 1 - 1)%Z with y by lia.
  destruct (is_leap_cases y) as [[-> H]|[-> H]]; divmod.
Qed.

Lemma days_before_year_mono (a b : Z) :
  (a <= b)%Z -> (days_before_year a <= days_before_year b)%Z.
Proof.
  intro H. unfold days_before_year. divmod.
Qed.

(** The months, one by one. *)
Lemma month_cases (m : Z) :
  (1 <= m <= 12)%Z ->
  (m = 1 \/ m = 2 \/ m = 3 \/ m = 4 \/ m = 5 \/ m = 6 \/ m = 7 \/ m = 8 \/
   m = 9 \/ m = 10 \/ m = 11 \/ m = 12)%Z.
Proof. lia. Qed.

Lemma valid_date_inv (d : date) :
  valid_date d = true ->
  (1 <= year d <= MAXYEAR /\ 1 <= month d <= 12 /\
   1 <= day d <= days_in_month (year d) (month d))%Z.
Proof.
  unfold valid_date. rewrite !andb_true_iff, !Z.leb_le. tauto.
Qed.

(** The day of the year stays within the year. *)
Lemma day_of_year_bounds (d : date) :
  valid_date d = true ->
  (1 <= days_before_month (year d) (month d) + day d
     <= 365 + (if is_leap (year d) then 1 else 0))%Z.
Proof.
  intro V. apply valid_date_inv in V. destruct V as (_ & Hm & Hd).
  unfold days_before_month, days_in_month in *.
  destruct (is_leap (year d));
    destruct (month_cases _ Hm) as
      [E|[E|[E|[E|[E|[E|[E|[E|[E|[E|[E|E]]]]]]]]]]];
    rewrite E in *; table; cbn [andb] in *; lia.
Qed.

Lemma toordinal_bounds (d : date) :
  valid_date d = true -> (1 <= toordinal d <= MAXORDINAL)%Z.
Proof.
  intro V. pose proof (day_of_year_bounds d V) as B.
  apply valid_date_inv in V. destruct V as (Hy & _ & _).
  unfold toordinal.
  pose proof (days_before_next_year (year d)) as N.
  pose proof (days_before_year_mono 1 (year d) (proj1 Hy)) as L.
  pose proof (days_before_year_mono (year d + 1) 10000) as U.
  unfold MAXYEAR in Hy.
  change (days_before_year 1) with 0%Z in L.
  change (days_before_year 10000) with 3652059%Z in U.
  unfold MAXORDINAL. lia.
Qed.

Lemma make_date_valid (y m d : Z) (dt : date) :
  make_date y m d = Ok dt -> valid_date dt = true.
Proof.
  unfold make_date. destruct (valid_date (mkDate y m d)) eqn:V; [|discriminate].
  intro H. now injection H as <-.
Qed.

Lemma strptime_ymd_valid (s : string) (d : date) :
  strptime_ymd s = Ok d -> valid_date d = true.
Proof.
  unfold strptime_ymd.
  destruct (read_digits s 0 0) as [[y ny] s1].
  destruct ny as [|[|[|[|[|ny]]]]]; try discriminate.
  destruct s1 as [|c s2]; try discriminate.
  destruct (Ascii.eqb_spec c "-"); [subst c|];
    [|destruct c as [[] [] [] [] [] [] [] []]; try discriminate;
      contradiction].
  destruct (read_digits s2 0 0) as [[m nm] s3].
  destruct s3 as [|c s4]; try discriminate.
  destruct (Ascii.eqb_spec c "-"); [subst c|];
    [|destruct c as [[] [] [] [] [] [] [] []]; try discriminate;
      contradiction].
  destruct (read_digits s4 0 0) as [[dd nd] s5].
  destruct s5; try discriminate.
  destruct (_ && _ && _ && _)%bool; [|discriminate].
  apply make_date_valid.
Qed.

(** *** From a date to its ordinal and back *)

Lemma year_decompose (p : Z) :
  (0 <= p)%Z ->
  exists a b c e : Z,
    (p = 400 * a + 100 * b + 4 * c + e /\
     0 <= a /\ 0 <= b < 4 /\ 0 <= c < 25 /\ 0 <= e < 4 /\
     days_before_year (p + 1) = 146097 * a + 36524 * b + 1461 * c + 365 * e)%Z
    /\ (is_leap (p + 1) = true <-> (e = 3 /\ (c <> 24 \/ b = 3))%Z).
Proof.
  intro Hp.
  exists (p / 400)%Z, (p mod 400 / 100)%Z, (p mod 100 / 4)%Z, (p mod 4)%Z.
  split.
  - unfold days_before_year. replace (p + 1 - 1)%Z with p by lia. divmod.
  - destruct (is_leap_cases (p + 1)) as [[-> H]|[-> H]].
    + split; [intros _|reflexivity]. divmod.
    + split; [discriminate|]. intro H'. exfalso. divmod.
Qed.



Lemma all_days_ok_true (leapyear : bool) : all_days_ok leapyear = true.
Proof. destruct leapyear; vm_compute; reflexivity. Qed.

Lemma month_day_correct (y m dd : Z) :
  (1 <= m <= 12)%Z -> (1 <= dd <= days_in_month y m)%Z ->
  month_day (is_leap y) (days_before_month y m + dd - 1) = (m, dd).
Proof.
  intros Hm Hd.
  assert (Hdd : (dd <= 31)%Z).
  { unfold days_in_month in Hd.
    destruct ((m =? 2)%Z && is_leap y); [lia|].
    destruct (month_cases _ Hm) as
      [E|[E|[E|[E|[E|[E|[E|[E|[E|[E|[E|E]]]]]]]]]]];
      subst m; table; lia. }
  pose proof (all_days_ok_true (is_leap y)) as H.
  unfold all_days_ok in H. rewrite forallb_forall in H.
  specialize (H (Z.to_nat m)). rewrite in_seq in H.
  specialize (H ltac:(lia)). rewrite forallb_forall in H.
  specialize (H (Z.to_nat dd)). rewrite in_seq in H.
  specialize (H ltac:(lia)).
  rewrite !Z2Nat.id in H by lia.
  unfold month_day_ok in H. unfold days_in_month in Hd.
  unfold days_before_month.
  destruct Hd as [_ Hd]. apply Z.leb_le in Hd. rewrite Hd in H.
  cbn [implb] in H.
  destruct (month_day (is_leap y) _) as [m' dd'].
  apply andb_true_iff in H. destruct H as [H1 H2].
  apply Z.eqb_eq in H1, H2. now subst.
Qed.

Lemma fromordinal_toordinal (d : date) :
  valid_date d = true -> fromordinal (toordinal d) = d.
Proof.
  intro V. pose proof (day_of_year_bounds d V) as B.
  apply valid_date_inv in V. destruct V as (Hy & Hm & Hd).
  pose proof (month_day_correct (year d) (month d) (day d) Hm Hd) as MD.
  destruct d as [y m dd]. cbn [year month day] in *.
  destruct (year_decompose (y - 1) ltac:(lia))
    as (a & b & c & e & (Hp & Ha & Hb & Hc & He & Hdby) & Hleap).
  replace (y - 1 + 1)%Z with y in * by lia.
  unfold toordinal. cbn [year month day]. rewrite Hdby.
  remember (days_before_month y m + dd - 1)%Z as t eqn:Et.
  assert (Ht : (0 <= t <= 364 + (if is_leap y then 1 else 0))%Z) by lia.
  unfold fromordinal.
  replace (146097 * a + 36524 * b + 1461 * c + 365 * e
           + days_before_month y m + dd - 1)%Z
    with (146097 * a + (36524 * b + 1461 * c + 365 * e + t))%Z by lia.
  clear Et B Hd Hdby.
  set (r1 := (36524 * b + 1461 * c + 365 * e + t)%Z).
  assert (Hr1 : (0 <= r1 < 146097)%Z).
  { subst r1. destruct (is_leap y).
    - destruct (proj1 Hleap eq_refl) as [-> [Hc'|Hb']]; lia.
    - lia. }
  assert (D1 : ((146097 * a + r1) / 146097 = a)%Z)
    by divmod.
  assert (M1 : ((146097 * a + r1) mod 146097 = r1)%Z)
    by divmod.
  cbv zeta. rewrite D1, M1. clear D1 M1.
  destruct (Z.eq_dec t 365) as [T|T].
  - (* the last day of a leap year *)
    assert (L : is_leap y = true) by (destruct (is_leap y); [reflexivity|lia]).
    rewrite L in *. destruct (proj1 Hleap eq_refl) as [-> Hcb].
    subst t. vm_compute in MD. injection MD as <- <-.
    destruct (Z.eq_dec b 3) as [B3|B3]; [destruct (Z.eq_dec c 24) as [C|C]|].
    + subst b c.
      assert (D2 : (r1 / 36524 = 4)%Z) by (subst r1; reflexivity).
      assert (M2 : (r1 mod 36524 = 0)%Z) by (subst r1; reflexivity).
      rewrite D2, M2.
      change (0 mod 1461)%Z with 0%Z. change (0 / 1461)%Z with 0%Z.
      change (0 / 365)%Z with 0%Z.
      cbn [Z.eqb orb Pos.eqb]. f_equal. lia.
    + subst b.
      assert (D2 : (r1 / 36524 = 3)%Z) by (subst r1; Z.div_mod_to_equations; lia).
      assert (M2 : (r1 mod 36524 = 1461 * c + 1460)%Z)
        by (subst r1; Z.div_mod_to_equations; lia).
      rewrite D2, M2.
      assert (D3 : ((1461 * c + 1460) / 1461 = c)%Z)
        by divmod.
      assert (M3 : ((1461 * c + 1460) mod 1461 = 1460)%Z)
        by divmod.
      rewrite D3, M3. vm_compute (1460 / 365)%Z. cbn [Z.eqb orb Pos.eqb].
      f_equal. lia.
    + assert (C : c <> 24%Z) by (destruct Hcb; [assumption|contradiction]).
      assert (D2 : (r1 / 36524 = b)%Z) by (subst r1; Z.div_mod_to_equations; lia).
      assert (M2 : (r1 mod 36524 = 1461 * c + 1460)%Z)
        by (subst r1; Z.div_mod_to_equations; lia).
      rewrite D2, M2.
      assert (D3 : ((1461 * c + 1460) / 1461 = c)%Z)
        by divmod.
      assert (M3 : ((1461 * c + 1460) mod 1461 = 1460)%Z)
        by divmod.
      rewrite D3, M3. vm_compute (1460 / 365)%Z. cbn [Z.eqb orb Pos.eqb].
      f_equal. lia.
  - assert (Ht' : (0 <= t <= 364)%Z) by (destruct (is_leap y); lia).
    assert (D2 : (r1 / 36524 = b)%Z) by (subst r1; Z.div_mod_to_equations; lia).
    assert (M2 : (r1 mod 36524 = 1461 * c + 365 * e + t)%Z)
      by (subst r1; Z.div_mod_to_equations; lia).
    rewrite D2, M2.
    assert (D3 : ((1461 * c + 365 * e + t) / 1461 = c)%Z)
      by divmod.
    assert (M3 : ((1461 * c + 365 * e + t) mod 1461 = 365 * e + t)%Z)
      by divmod.
    rewrite D3, M3.
    assert (D4 : ((365 * e + t) / 365 = e)%Z) by divmod.
    assert (M4 : ((365 * e + t) mod 365 = t)%Z) by divmod.
    rewrite D4, M4.
    replace ((e =? 4)%Z || (b =? 4)%Z) with false
      by (symmetry; apply orb_false_iff; split; apply Z.eqb_neq; lia).
    replace ((e =? 3)%Z && (negb (c =? 24)%Z || (b =? 3)%Z))
      with (is_leap y).
    + rewrite MD. f_equal. lia.
    + destruct (is_leap y).
      * destruct (proj1 Hleap eq_refl) as [-> Hcb]. cbn [Z.eqb Pos.eqb andb].
        symmetry. apply orb_true_iff. destruct Hcb as [Hc'|Hb'].
        { left. apply negb_true_iff, Z.eqb_neq, Hc'. }
        { right. apply Z.eqb_eq, Hb'. }
      * symmetry. apply not_true_iff_false. intro H.
        apply andb_true_iff in H. destruct H as [H1 H2].
        apply Z.eqb_eq in H1. apply orb_true_iff in H2.
        assert (F : false = true); [|discriminate].
        apply Hleap. split; [exact H1|].
        destruct H2 as [H2|H2].
        { left. apply negb_true_iff, Z.eqb_neq in H2. exact H2. }
        { right. apply Z.eqb_eq, H2. }
Qed.

End Calendar.

(** ** The synthetic oil series of data.py *)

Section MockOilData.
Import Data.

Lemma for_range_inv {A : Type} (body : nat -> result A) (n : nat)
    (data : list A) :
  for_range body n = Ok data ->
  List.length data = n /\
  forall i, (i < n)%nat ->
    exists x, body i = Ok x /\ nth_error data i = Some x.
Proof.
  revert data. induction n as [|n IH]; intros data H; simpl in H.
  - injection H as <-. split; [reflexivity|]. intros i Hi. lia.
  - destruct (for_range body n) as [data'|]; [|discriminate].
    cbn [bind] in H.
    destruct (body n) as [x|] eqn:Hx; [|discriminate].
    cbn [bind] in H. injection H as <-.
    destruct (IH data' eq_refl) as [Hlen Hnth].
    split.
    + rewrite length_app. simpl. lia.
    + intros i Hi. destruct (Nat.eq_dec i n) as [->|Hne].
      * exists x. split; [exact Hx|].
        rewrite nth_error_app2 by lia.
        rewrite Hlen, Nat.sub_diag. reflexivity.
      * destruct (Hnth i ltac:(lia)) as (y & Hy & Hi').
        exists y. split; [exact Hy|].
        rewrite nth_error_app1 by lia. exact Hi'.
Qed.

Lemma for_range_total {A : Type} (body : nat -> result A) (n : nat) :
  (forall i, (i < n)%nat -> exists x, body i = Ok x) ->
  exists data, for_range body n = Ok data.
Proof.
  induction n as [|n IH]; intro H; simpl.
  - eexists. reflexivity.
  - destruct IH as [data ->]; [intros i Hi; apply H; lia|].
    destruct (H n ltac:(lia)) as [x ->].
    cbn [bind]. eexists. reflexivity.
Qed.

(** For valid dates [start <= end] the generator returns one entry for
    each day from [start] to [end], in order. *)
Lemma generate_mock_oil_data_days (w : World) (start end_ : string)
    (s e : Py.date) :
  strptime_ymd start = Ok s -> strptime_ymd end_ = Ok e ->
  (toordinal s <= toordinal e)%Z ->
  exists data,
    generate_mock_oil_data w start end_ = Ok data /\
    Z.of_nat (List.length data) = (days_between e s + 1)%Z /\
    forall i, (i < List.length data)%nat ->
      exists it,
        nth_error data i = Some it /\
        date it = isoformat (fromordinal (toordinal s + Z.of_nat i)).
Proof.
  intros Hs He Hle.
  pose proof (toordinal_bounds s (strptime_ymd_valid _ _ Hs)) as Bs.
  pose proof (toordinal_bounds e (strptime_ymd_valid _ _ He)) as Be.
  unfold generate_mock_oil_data. rewrite Hs, He. cbn [bind].
  unfold days_between.
  set (n := Z.to_nat (toordinal e - toordinal s + 1)).
  assert (Hbody : forall i, (i < n)%nat ->
            mock_oil_item w s i =
              Ok {| date := isoformat (fromordinal (toordinal s + Z.of_nat i));
                    value := Str (str_hundredths (round_half_even
                      ((80.0 + inject_Z (Z.of_nat i mod 10) * 0.1
                        + uniform w i) * 100))) |}).
  { intros i Hi. unfold mock_oil_item, date_add.
    assert (Hin : ((1 <=? toordinal s + Z.of_nat i)%Z &&
                   (toordinal s + Z.of_nat i <=? MAXORDINAL)%Z) = true).
    { apply andb_true_iff. rewrite !Z.leb_le. subst n. lia. }
    rewrite Hin. reflexivity. }
  destruct (for_range_total (mock_oil_item w s) n) as [data Hdata].
  { intros i Hi. rewrite (Hbody i Hi). eexists. reflexivity. }
  exists data. split; [exact Hdata|].
  destruct (for_range_inv _ _ _ Hdata) as [Hlen Hnth].
  split.
  - rewrite Hlen. subst n. lia.
  - intros i Hi. rewrite Hlen in Hi.
    destruct (Hnth i Hi) as (x & Hx & Hi').
    exists x. split; [exact Hi'|].
    rewrite (Hbody i Hi) in Hx. injection Hx as <-. reflexivity.
Qed.

(** The first entry is that of [start], the last one that of [end]. *)
Lemma generate_mock_oil_data_ends (w : World) (start end_ : string)
    (s e : Py.date) :
  strptime_ymd start = Ok s -> strptime_ymd end_ = Ok e ->
  (toordinal s <= toordinal e)%Z ->
  exists data first final,
    generate_mock_oil_data w start end_ = Ok data /\
    nth_error data 0 = Some first /\ date first = isoformat s /\
    nth_error data (List.length data - 1) = Some final /\
    date final = isoformat e.
Proof.
  intros Hs He Hle.
  destruct (generate_mock_oil_data_days w start end_ s e Hs He Hle)
    as (data & Hdata & Hlen & Hnth).
  unfold days_between in Hlen.
  destruct (Hnth 0%nat ltac:(lia)) as (first & Hf & Hfd).
  destruct (Hnth (List.length data - 1)%nat ltac:(lia)) as (final & Hl & Hld).
  exists data, first, final. repeat split; try assumption.
  - rewrite Hfd, Z.add_0_r.
    now rewrite (fromordinal_toordinal s (strptime_ymd_valid _ _ Hs)).
  - rewrite Hld.
    replace (toordinal s + Z.of_nat (List.length data - 1))%Z
      with (toordinal e) by lia.
    now rewrite (fromordinal_toordinal e (strptime_ymd_valid _ _ He)).
Qed.


End MockOilData.

(** ** The oil-price fetch (C5) *)

Section FetchOilPrices.
Import Data.





End FetchOilPrices.

(** ** The direct accessors (C10) *)

Section DirectAccessors.
Import Data McpTools.

Lemma fetch_fx_rates_returns (w : World) (base symbols : string) :
  exists rates, fetch_fx_rates w base symbols = Ok rates.
Proof.
  unfold fetch_fx_rates. destruct (unset (OXR_KEY w)); [eexists; reflexivity|].
  destruct (oxr_get w base symbols) as [[|rates|]|e]; cbn [try_except];
    eexists; reflexivity.
Qed.



End DirectAccessors.

(** ** The intent of a question (C8) *)

Section Intent.



Lemma first_intent_some (table : list (string * list string))
    (text intent : string) :
  App.first_intent table text = Some intent ->
  exists patterns pattern,
    In (intent, patterns) table /\ In pattern patterns /\
    matches pattern text = true.
Proof.
  induction table as [|[i ps] table IH]; simpl; [discriminate|].
  destruct (App.any_pattern ps text) eqn:E.
  - intro H. injection H as <-.
    unfold App.any_pattern in E. apply existsb_exists in E.
    destruct E as (q & Hq & Hm). exists ps, q. repeat split; auto.
  - intro H. destruct (IH H) as (ps' & q & Hin & Hq & Hm).
    exists ps', q. repeat split; auto.
Qed.





End Intent.

(** ** Failures at the top level (C9) *)

Section TopLevel.

(** [process_market_query] keeps its whole body in a [try], and returns
    for every question. *)
Lemma process_market_query_returns (w : Data.World) (llm : McpTools.Llm)
    (question : string) :
  exists r, McpTools.process_market_query w llm question = Ok r.
Proof.
  unfold McpTools.process_market_query.
  match goal with
  | |- exists r, try_except ?m _ = _ => destruct m as [r|e]
  end; cbn [try_except]; eexists; reflexivity.
Qed.

(** [fetch_data] and [generate_response] cannot fail: [process_query]
    returns whenever [analyze_query] does. *)
Lemma process_query_returns_after_analysis (w : App.World) (query : string)
    (a : App.QueryAnalysis) :
  App.analyze_query (App.today w) query = Ok a ->
  exists r, App.process_query w query = Ok r.
Proof.
  intro H. unfold App.process_query. rewrite H. cbn [bind].
  eexists. reflexivity.
Qed.

(** C9, where the code departs from it.  [process_query] has no [try]
    around the analysis of the query: the [OverflowError] that
    [timedelta] raises for a number of days above 999999999 reaches the
    caller, whatever the date and the collaborators are. *)
Theorem process_query_propagates_overflow (w : App.World) :
  App.analyze_query (App.today w) "oil price 1000000000 days ago"
    = Raise OverflowError /\
  App.process_query w "oil price 1000000000 days ago" = Raise OverflowError.
Proof.
  assert (H : forall today,
             App.analyze_query today "oil price 1000000000 days ago"
               = Raise OverflowError).
  { intro today. vm_compute. reflexivity. }
  split; [apply H|].
  unfold App.process_query. rewrite H. reflexivity.
Qed.

(** The same question through the other entry point gives the answer
    that reports the error. *)
Lemma process_market_query_degrades :
  exists r,
    McpTools.process_market_query offline no_llm
      "oil price 1000000000 days ago" = Ok r.
Proof. apply process_market_query_returns. Qed.

End TopLevel.

(** ** The synthetic oil series of app.py (C4) *)

Section AppMockOilData.

Lemma fromisoformat_valid (s : string) (d : Py.date) :
  fromisoformat s = Ok d -> valid_date d = true.
Proof.
  unfold fromisoformat.
  destruct (read_digits s 0 0) as [[y ny] s1].
  destruct ny as [|[|[|[|[|ny]]]]]; try discriminate.
  destruct s1 as [|c s2]; try discriminate.
  destruct (Ascii.eqb_spec c "-"); [subst c|];
    [|destruct c as [[] [] [] [] [] [] [] []]; try discriminate;
      contradiction].
  destruct (read_digits s2 0 0) as [[m nm] s3].
  destruct nm as [|[|[|nm]]]; try discriminate.
  destruct s3 as [|c s4]; try discriminate.
  destruct (Ascii.eqb_spec c "-"); [subst c|];
    [|destruct c as [[] [] [] [] [] [] [] []]; try discriminate;
      contradiction].
  destruct (read_digits s4 0 0) as [[dd nd] s5].
  destruct nd as [|[|[|nd]]]; try discriminate.
  destruct s5; try discriminate.
  apply make_date_valid.
Qed.

(** With fewer than two entries there are no statistics; with two or
    more, and a first value that is not zero, there are. *)
Lemma calculate_statistics_short (data : list App.item) :
  (List.length data < 2)%nat -> App._calculate_statistics data = Ok None.
Proof.
  intro H. unfold App._calculate_statistics.
  apply Nat.ltb_lt in H. now rewrite H.
Qed.

Lemma calculate_statistics_returns (data : list App.item) (x : App.item) :
  (2 <= List.length data)%nat ->
  nth_error data 0 = Some x -> ~ App.value x == 0 ->
  exists st, App._calculate_statistics data = Ok (Some st).
Proof.
  intros Hlen Hx Hnz. unfold App._calculate_statistics.
  apply Nat.ltb_ge in Hlen. rewrite Hlen.
  destruct data as [|y data]; [discriminate|].
  simpl in Hx. injection Hx as ->. cbn [map].
  rewrite (truediv_ok _ _ Hnz). cbn [bind].
  match goal with
  | |- context [stats_dict ?xs ?f ?l ?pc] =>
      destruct (stats_dict_returns xs f l pc) as [st ->]; [discriminate|]
  end.
  cbn [bind]. exists st. reflexivity.
Qed.

(** For a window of valid dates [start <= end], a clock that is thirty
    days or more after 0001-01-01 and draws within [-0.5, 0.5],
    [_generate_mock_oil_data] returns a series with one entry for each
    day of the window, unless the window has a single day and the
    location is a supported country: then it raises [TypeError]. *)
Lemma app_generate_mock_oil_data_cases (w : App.World)
    (parameters : list (string * string)) (start end_ : string)
    (s e : Py.date) :
  lookup "start_date" parameters = Some start ->
  lookup "end_date" parameters = Some end_ ->
  fromisoformat start = Ok s -> fromisoformat end_ = Ok e ->
  (toordinal s <= toordinal e)%Z ->
  (31 <= toordinal (App.today w) <= MAXORDINAL)%Z ->
  (forall i, - (1 # 2) <= App.uniform w i /\ App.uniform w i <= 1 # 2) ->
  (toordinal s = toordinal e -> supported_location parameters ->
   App._generate_mock_oil_data w parameters = Raise TypeError) /\
  ((toordinal s < toordinal e)%Z \/ ~ supported_location parameters ->
   exists data stats,
     App._generate_mock_oil_data w parameters =
       Ok (App.OilPrices data stats "Mock data" parameters) /\
     Z.of_nat (List.length data) = (days_between e s + 1)%Z).
Proof.
  intros Hstart Hend Hs He Hle Htoday Hu.
  pose proof (toordinal_bounds s (fromisoformat_valid _ _ Hs)) as Bs.
  pose proof (toordinal_bounds e (fromisoformat_valid _ _ He)) as Be.
  unfold App._generate_mock_oil_data.
  assert (Hdef : exists d0, date_sub (App.today w) 30 = Ok d0).
  { unfold date_sub, date_add.
    replace ((1 <=? toordinal (App.today w) + - (30))%Z &&
             (toordinal (App.today w) + - (30) <=? MAXORDINAL)%Z)
      with true; [eexists; reflexivity|].
    symmetry. apply andb_true_iff. rewrite !Z.leb_le. lia. }
  destruct Hdef as [d0 ->]. cbn [bind].
  rewrite Hstart, Hend. cbn [McpTools.or_else].
  rewrite Hs, He. cbn [bind].
  unfold days_between.
  set (n := Z.to_nat (toordinal e - toordinal s + 1)).
  assert (Hbody : forall i, (i < n)%nat ->
            App.mock_oil_item w s i =
              Ok {| App.date :=
                      isoformat (fromordinal (toordinal s + Z.of_nat i));
                    App.value :=
                      round2 (80.0 + inject_Z (Z.of_nat i mod 10) * 0.1
                              + App.uniform w i) |}).
  { intros i Hi. unfold App.mock_oil_item, date_add.
    replace ((1 <=? toordinal s + Z.of_nat i)%Z &&
             (toordinal s + Z.of_nat i <=? MAXORDINAL)%Z) with true;
      [reflexivity|].
    symmetry. apply andb_true_iff. rewrite !Z.leb_le. subst n. lia. }
  destruct (for_range_total (App.mock_oil_item w s) n) as [data Hdata].
  { intros i Hi. rewrite (Hbody i Hi). eexists. reflexivity. }
  rewrite Hdata. cbn [bind].
  destruct (for_range_inv _ _ _ Hdata) as [Hlen Hnth].
  assert (Hn : (1 <= n)%nat) by (subst n; lia).
  destruct (Hnth 0%nat Hn) as (x0 & Hx0 & Hnth0).
  rewrite (Hbody 0%nat Hn) in Hx0. injection Hx0 as Hx0.
  assert (Hpos : ~ App.value x0 == 0).
  { subst x0. cbn [App.value].
    destruct (round2_close
                (80.0 + inject_Z (Z.of_nat 0 mod 10) * 0.1 + App.uniform w 0))
      as [_ Hc].
    destruct (Hu 0%nat) as [Hu0 _].
    change (inject_Z (Z.of_nat 0 mod 10)) with 0 in *.
    intro E. rewrite E in Hc. lra. }
  assert (Hlatest : exists v, App.latest_value data = Ok v).
  { unfold App.latest_value. destruct data; [discriminate|].
    eexists. reflexivity. }
  destruct Hlatest as [v Hv].
  split.
  - intros Heq (country & cfg & Hloc & Hcfg).
    assert (Hone : (List.length data < 2)%nat) by (rewrite Hlen; subst n; lia).
    rewrite (calculate_statistics_short data Hone). cbn [bind].
    rewrite Hloc, Hcfg, Hv. cbn [bind].
    unfold App._compute_retail_price. rewrite Hcfg. reflexivity.
  - intros Hcase.
    assert (Hlen' : Z.of_nat (List.length data)
                    = (toordinal e - toordinal s + 1)%Z)
      by (rewrite Hlen; subst n; lia).
    destruct (Nat.lt_ge_cases (List.length data) 2) as [Hone|Htwo].
    + rewrite (calculate_statistics_short data Hone). cbn [bind].
      destruct Hcase as [Hlt|Hno]; [rewrite Hlen in Hone; subst n; lia|].
      destruct (lookup "location" parameters) as [country|] eqn:Hloc;
        [|cbn [bind]; do 2 eexists; split; [reflexivity|exact Hlen']].
      destruct (lookup country App.COUNTRY_FUEL_DATA) as [cfg|] eqn:Hcfg;
        [|cbn [bind]; do 2 eexists; split; [reflexivity|exact Hlen']].
      exfalso. apply Hno. exists country, cfg. split; assumption.
    + destruct (calculate_statistics_returns data x0 Htwo Hnth0 Hpos)
        as [st ->].
      cbn [bind].
      destruct (lookup "location" parameters) as [country|] eqn:Hloc;
        [|cbn [bind]; do 2 eexists; split; [reflexivity|exact Hlen']].
      destruct (lookup country App.COUNTRY_FUEL_DATA) as [cfg|] eqn:Hcfg;
        [|cbn [bind]; do 2 eexists; split; [reflexivity|exact Hlen']].
      rewrite Hv. cbn [bind].
      unfold App._compute_retail_price. rewrite Hcfg.
      cbn [App.set_retail bind].
      do 2 eexists. split; [reflexivity|exact Hlen'].
Qed.

(** C4, where the code departs from it.  The statistics of a single
    entry are [None], and the retail quote of a supported country cannot
    be stored in them: for a window of one day and the location "usa",
    [_generate_mock_oil_data] of app.py raises instead of returning the
    series of length 1, [fetch_data] turns that into the error
    dictionary, and the question that leads there gets the apology.
    [generate_mock_oil_data] of data.py returns the entry. *)
Theorem app_mock_oil_single_day_raises :
  App._generate_mock_oil_data quiet_world
    [ ("start_date", "2024-05-01"); ("end_date", "2024-05-01");
      ("location", "usa") ] = Raise TypeError /\
  App.fetch_data quiet_world "oil_price"
    [ ("start_date", "2024-05-01"); ("end_date", "2024-05-01");
      ("location", "usa") ]
    = App.FetchError (App.Message TypeError) "oil_price" /\
  (exists out,
     App.process_query quiet_world
       "oil price from 2024-05-01 to 2024-05-01 in Germany" = Ok out /\
     App.parameters (App.analysis out) =
       [ ("location", "germany"); ("start_date", "2024-05-01");
         ("end_date", "2024-05-01") ] /\
     App.response out =
       {| App.text := App.SorryError (App.Message TypeError);
          App.data := None |}) /\
  (exists data,
     Data.generate_mock_oil_data offline "2024-05-01" "2024-05-01" = Ok data /\
     List.length data = 1%nat).
Proof.
  split; [vm_compute; reflexivity|].
  split; [vm_compute; reflexivity|].
  split; eexists; (split; [vm_compute; reflexivity|]).
  - split; reflexivity.
  - reflexivity.
Qed.

End AppMockOilData.


Section Texts.

Lemma append_nil_r (s : string) : s ++ "" = s.
Proof. induction s as [|c s IH]; simpl; [reflexivity|now rewrite IH]. Qed.

Lemma append_assoc (a b c : string) : (a ++ b) ++ c = a ++ (b ++ c).
Proof. induction a as [|x a IH]; simpl; [reflexivity|now rewrite IH]. Qed.

Lemma rev_string_acc (s acc : string) :
  rev_string s acc = rev_string s "" ++ acc.
Proof.
  revert acc. induction s as [|c s IH]; intro acc; simpl; [reflexivity|].
  rewrite IH, (IH (String c "")), append_assoc. reflexivity.
Qed.

Lemma rev_string_append (a b : string) :
  rev_string (a ++ b) "" = rev_string b "" ++ rev_string a "".
Proof.
  induction a as [|c a IH]; simpl.
  - now rewrite append_nil_r.
  - rewrite rev_string_acc, IH, (rev_string_acc a (String c "")).
    apply append_assoc.
Qed.

Lemma rev_string_involutive (s : string) :
  rev_string (rev_string s "") "" = s.
Proof.
  induction s as [|c s IH]; simpl; [reflexivity|].
  rewrite (rev_string_acc s (String c "")), rev_string_append, IH.
  reflexivity.
Qed.

(** A text that neither starts nor ends with a blank is left as it is by
    [strip]. *)
Lemma strip_clean (c : ascii) (s : string) (z : ascii) :
  is_space c = false -> is_space z = false ->
  strip (String c s ++ String z "") = String c s ++ String z "".
Proof.
  intros Hc Hz. unfold strip.
  assert (L1 : lstrip (String c s ++ String z "") = String c s ++ String z "").
  { simpl. now rewrite Hc. }
  rewrite L1, rev_string_append.
  assert (L2 : forall r, lstrip (rev_string (String z "") "" ++ r)
                         = String z "" ++ r).
  { intro r. simpl. now rewrite Hz. }
  rewrite L2, rev_string_append, rev_string_involutive. reflexivity.
Qed.

End Texts.

Section Numerals.

Lemma digit_not_space (c : ascii) : is_digit c = true -> is_space c = false.
Proof.
  unfold is_digit, is_space. intro H.
  apply andb_true_iff in H. destruct H as [H1 H2].
  apply Nat.leb_le in H1, H2.
  apply orb_false_iff. split.
  - apply Nat.eqb_neq. lia.
  - apply andb_false_iff. right. apply Nat.leb_gt. lia.
Qed.

Lemma digit_no_sign (c : ascii) (t : string) :
  is_digit c = true -> read_sign (String c t) = (false, String c t).
Proof.
  destruct c as [[] [] [] [] [] [] [] []]; intro H;
    try discriminate H; reflexivity.
Qed.

(** The ten digits. *)
Lemma digit_char_facts (x : Z) :
  (0 <= x <= 9)%Z ->
  is_digit (digit_char x) = true /\ digit_val (digit_char x) = x.
Proof.
  intro H.
  assert (E : (x = 0 \/ x = 1 \/ x = 2 \/ x = 3 \/ x = 4 \/ x = 5 \/ x = 6 \/
               x = 7 \/ x = 8 \/ x = 9)%Z) by lia.
  repeat (destruct E as [-> | E]; [split; reflexivity|]).
  subst x. split; reflexivity.
Qed.


Lemma read_digits_stop (rest : string) (acc : Z) (n : nat) :
  no_digit_ahead rest -> read_digits rest acc n = (acc, n, rest).
Proof.
  destruct rest as [|c t]; simpl; [reflexivity|]. now intros ->.
Qed.

Lemma read_digits_uint_acc (u : Decimal.uint) (rest : string) :
  no_digit_ahead rest ->
  forall (acc : positive) (n : nat),
    read_digits (NilEmpty.string_of_uint u ++ rest) (Z.pos acc) n =
      (Z.pos (Pos.of_uint_acc u acc), (n + Decimal.nb_digits u)%nat, rest).
Proof.
  intro Hr. induction u as [|u IH|u IH|u IH|u IH|u IH|u IH|u IH|u IH|u IH|u IH];
    intros acc n;
    [ simpl; rewrite Nat.add_0_r; now apply read_digits_stop | .. ];
    cbn [NilEmpty.string_of_uint append read_digits Pos.of_uint_acc
         Decimal.nb_digits];
    match goal with
    | |- context [is_digit ?c] =>
        change (is_digit c) with true; cbv iota
    end;
    match goal with
    | |- read_digits _ ?a _ = (Z.pos (Pos.of_uint_acc _ ?p), _, _) =>
        replace a with (Z.pos p)
          by (match goal with
              | |- context [digit_val ?c] =>
                  let v := eval vm_compute in (digit_val c) in
                  change (digit_val c) with v
              end; lia)
    end;
    rewrite IH; f_equal; f_equal; lia.
Qed.

Lemma read_digits_uint (u : Decimal.uint) (rest : string) :
  no_digit_ahead rest ->
  forall n : nat,
    read_digits (NilEmpty.string_of_uint u ++ rest) 0%Z n =
      (Z.of_N (Pos.of_uint u), (n + Decimal.nb_digits u)%nat, rest).
Proof.
  intro Hr. induction u as [|u IH|u IH|u IH|u IH|u IH|u IH|u IH|u IH|u IH|u IH];
    intro n;
    [ simpl; rewrite Nat.add_0_r; now apply read_digits_stop | .. ];
    cbn [NilEmpty.string_of_uint append read_digits Pos.of_uint
         Decimal.nb_digits Z.of_N];
    match goal with
    | |- context [is_digit ?c] =>
        change (is_digit c) with true; cbv iota
    end.
  - change (0 * 10 + digit_val "0")%Z with 0%Z.
    rewrite IH. f_equal. f_equal. lia.
  - change (0 * 10 + digit_val "1")%Z with 1%Z.
    rewrite (read_digits_uint_acc u rest Hr). f_equal. f_equal. lia.
  - change (0 * 10 + digit_val "2")%Z with 2%Z.
    rewrite (read_digits_uint_acc u rest Hr). f_equal. f_equal. lia.
  - change (0 * 10 + digit_val "3")%Z with 3%Z.
    rewrite (read_digits_uint_acc u rest Hr). f_equal. f_equal. lia.
  - change (0 * 10 + digit_val "4")%Z with 4%Z.
    rewrite (read_digits_uint_acc u rest Hr). f_equal. f_equal. lia.
  - change (0 * 10 + digit_val "5")%Z with 5%Z.
    rewrite (read_digits_uint_acc u rest Hr). f_equal. f_equal. lia.
  - change (0 * 10 + digit_val "6")%Z with 6%Z.
    rewrite (read_digits_uint_acc u rest Hr). f_equal. f_equal. lia.
  - change (0 * 10 + digit_val "7")%Z with 7%Z.
    rewrite (read_digits_uint_acc u rest Hr). f_equal. f_equal. lia.
  - change (0 * 10 + digit_val "8")%Z with 8%Z.
    rewrite (read_digits_uint_acc u rest Hr). f_equal. f_equal. lia.
  - change (0 * 10 + digit_val "9")%Z with 9%Z.
    rewrite (read_digits_uint_acc u rest Hr). f_equal. f_equal. lia.
Qed.

(** The decimal numeral of a natural number is read back as that number;
    it has a digit at least, and starts with one. *)
Lemma read_digits_string_of_N (m : Z) (rest : string) :
  (0 <= m)%Z -> no_digit_ahead rest ->
  exists k : nat,
    read_digits (Data.string_of_N m ++ rest) 0%Z 0 = (m, S k, rest) /\
    exists c t, Data.string_of_N m = String c t /\ is_digit c = true.
Proof.
  intros Hm Hr. unfold Data.string_of_N.
  pose proof (DecimalN.Unsigned.of_to (Z.to_N m)) as E.
  unfold N.of_uint in E.
  destruct (N.to_uint (Z.to_N m)) as [|u|u|u|u|u|u|u|u|u|u] eqn:U;
    [ exists O; cbn [NilZero.string_of_uint]; split;
      [ simpl in E;
        change (read_digits ("0" ++ rest) 0 0)
          with (read_digits rest 0%Z 1);
        rewrite (read_digits_stop rest _ _ Hr);
        f_equal; f_equal; lia
      | do 2 eexists; split; reflexivity ]
    | .. ];
    match goal with
    | |- context [NilZero.string_of_uint ?d] =>
        change (NilZero.string_of_uint d) with (NilEmpty.string_of_uint d);
        exists (Decimal.nb_digits u); split;
        [ rewrite (read_digits_uint d rest Hr), E, Z2N.id by exact Hm;
          reflexivity
        | do 2 eexists; split; reflexivity ]
    end.
Qed.

End Numerals.

Section FloatText.

Lemma pad2_tail (x : Z) :
  pad2 x = String (digit_char (x / 10)) "" ++ String (digit_char (x mod 10)) "".
Proof. reflexivity. Qed.

(** [float(str(x))] is [x] for a float of at most two decimals: the text
    that [str_hundredths] writes for [k] hundredths is read back by
    [float_of_str] as [k / 100]. *)
Lemma float_of_str_hundredths (k : Z) :
  exists q, float_of_str (Data.str_hundredths k) = Ok q /\
            q == inject_Z k / 100.
Proof.
  unfold Data.str_hundredths.
  set (a := Z.abs k). set (n := (a / 100)%Z). set (frac := (a mod 100)%Z).
  assert (Ha : (0 <= a)%Z) by (subst a; lia).
  assert (Hn : (0 <= n)%Z) by (subst n; divmod).
  assert (Hfrac : (0 <= frac < 100)%Z) by (subst frac; divmod).
  assert (Hsplit : (a = 100 * n + frac)%Z) by (subst n frac; divmod).
  destruct (digit_char_facts (frac / 10) ltac:(divmod)) as [D1 V1].
  destruct (digit_char_facts (frac mod 10) ltac:(divmod)) as [D2 V2].
  set (F0 := if (frac mod 10 =? 0)%Z then ""
             else String (digit_char (frac / 10)) "").
  set (z := if (frac mod 10 =? 0)%Z then digit_char (frac / 10)
            else digit_char (frac mod 10)).
  assert (HF : (if (frac mod 10 =? 0)%Z
                then String (digit_char (frac / 10)) ""
                else pad2 frac) = F0 ++ String z "").
  { subst F0 z. destruct (frac mod 10 =? 0)%Z; reflexivity. }
  rewrite HF.
  assert (Hz : is_digit z = true).
  { subst z. destruct (frac mod 10 =? 0)%Z; assumption. }
  (* the fraction, read back *)
  assert (RF : exists fp nf,
             read_digits (F0 ++ String z "") 0%Z 0 = (fp, nf, "") /\
             (1 <= nf)%nat /\
             inject_Z fp * pow10 (- Z.of_nat nf) == inject_Z frac / 100).
  { subst F0 z. destruct (Z.eqb_spec (frac mod 10) 0) as [E|E].
    - exists (frac / 10)%Z, 1%nat. cbn [append read_digits].
      rewrite D1, V1. cbn [read_digits]. split; [reflexivity|].
      split; [lia|].
      assert (E' : (frac = 10 * (frac / 10))%Z) by divmod.
      rewrite E' at 2. rewrite inject_Z_mult.
      change (pow10 (- Z.of_nat 1)) with (1 / 10). field.
    - exists frac, 2%nat. cbn [append read_digits].
      rewrite D1, V1. cbn [read_digits]. rewrite D2, V2. cbn [read_digits].
      split; [f_equal; f_equal; divmod|]. split; [lia|].
      change (pow10 (- Z.of_nat 2)) with (1 / 100). field. }
  destruct RF as (fp & nf & RF & Hnf & Vf).
  (* the whole part, read back *)
  destruct (read_digits_string_of_N n ("." ++ F0 ++ String z "") Hn eq_refl)
    as (ki & RI & c0 & t0 & HN & Hc0).
  (* no blank at either end *)
  set (sign := if (k <? 0)%Z then "-" else "").
  assert (Hstrip :
    strip (sign ++ Data.string_of_N n ++ "." ++ F0 ++ String z "")
    = sign ++ Data.string_of_N n ++ "." ++ F0 ++ String z "").
  { rewrite HN. subst sign. destruct (k <? 0)%Z.
    - replace ("-" ++ String c0 t0 ++ "." ++ F0 ++ String z "")
        with (String "-" (String c0 t0 ++ "." ++ F0) ++ String z "")
        by (simpl; now rewrite !append_assoc).
      apply strip_clean; [reflexivity|now apply digit_not_space].
    - replace ("" ++ String c0 t0 ++ "." ++ F0 ++ String z "")
        with (String c0 (t0 ++ "." ++ F0) ++ String z "")
        by (simpl; now rewrite !append_assoc).
      apply strip_clean; now apply digit_not_space. }
  unfold float_of_str. rewrite Hstrip.
  assert (Hsign :
    read_sign (sign ++ Data.string_of_N n ++ "." ++ F0 ++ String z "")
    = ((k <? 0)%Z, Data.string_of_N n ++ "." ++ F0 ++ String z "")).
  { subst sign. destruct (k <? 0)%Z; [reflexivity|].
    rewrite HN. cbn [append]. now apply digit_no_sign. }
  rewrite Hsign, RI. cbn [append]. rewrite RF.
  cbn [read_exponent Nat.add].
  destruct (ki + nf)%nat eqn:Hsum; [lia|].
  eexists. split; [reflexivity|].
  assert (Hv : Qred ((inject_Z n + inject_Z fp * pow10 (- Z.of_nat nf))
                     * pow10 0) == inject_Z a / 100).
  { rewrite Qred_correct, Vf, Hsplit, inject_Z_plus, inject_Z_mult.
    change (pow10 0) with 1. field. }
  destruct (Z.ltb_spec k 0) as [Hk|Hk].
  - rewrite Hv. subst a. rewrite Z.abs_neq by lia.
    rewrite inject_Z_opp. field.
  - rewrite Hv. subst a. rewrite Z.abs_eq by lia. reflexivity.
Qed.

End FloatText.

Section MockSeries.
Import Data McpTools.

Lemma round_half_even_between (lo hi : Z) (x : Q) :
  inject_Z lo <= x -> x <= inject_Z hi ->
  (lo <= round_half_even x <= hi)%Z.
Proof.
  intros Hlo Hhi. destruct (round_half_even_close x) as [C1 C2].
  split.
  - destruct (Z_le_gt_dec lo (round_half_even x)) as [H|H]; [exact H|].
    exfalso. assert (H' : (round_half_even x + 1 <= lo)%Z) by lia.
    rewrite Zle_Qle, inject_Z_plus in H'. change (inject_Z 1) with 1 in H'.
    lra.
  - destruct (Z_le_gt_dec (round_half_even x) hi) as [H|H]; [exact H|].
    exfalso. assert (H' : (hi + 1 <= round_half_even x)%Z) by lia.
    rewrite Zle_Qle, inject_Z_plus in H'. change (inject_Z 1) with 1 in H'.
    lra.
Qed.

Lemma nth_error_last {A : Type} (l : list A) (d : A) :
  l <> [] -> nth_error l (List.length l - 1) = Some (last l d).
Proof.
  induction l as [|x l IH]; intro Hne; [contradiction|].
  destruct l as [|y l]; [reflexivity|].
  replace (List.length (x :: y :: l) - 1)%nat
    with (S (List.length (y :: l) - 1)) by (simpl; lia).
  cbn [nth_error]. rewrite IH by discriminate. reflexivity.
Qed.

(** The price of the day [i] before rounding, and its bounds. *)
Lemma mock_price_bounds (u : Q) (i : nat) :
  - (1 # 2) <= u -> u <= 1 # 2 ->
  inject_Z 7950 <= (80.0 + inject_Z (Z.of_nat i mod 10) * 0.1 + u) * 100 /\
  (80.0 + inject_Z (Z.of_nat i mod 10) * 0.1 + u) * 100 <= inject_Z 8140.
Proof.
  intros H1 H2.
  assert (Hm : (0 <= Z.of_nat i mod 10 <= 9)%Z) by divmod.
  destruct Hm as [M1 M2]. rewrite Zle_Qle in M1, M2.
  change (inject_Z 0) with 0 in M1. change (inject_Z 9) with 9 in M2.
  change (inject_Z 7950) with 7950. change (inject_Z 8140) with 8140.
  split; lra.
Qed.

(** What one turn of the loop of [generate_mock_oil_data] appends. *)
Lemma mock_oil_item_inv (w : World) (s : Py.date) (i : nat) (it : item) :
  (forall j, - (1 # 2) <= uniform w j /\ uniform w j <= 1 # 2) ->
  mock_oil_item w s i = Ok it ->
  date it = isoformat (fromordinal (toordinal s + Z.of_nat i)) /\
  exists text q,
    value it = Str text /\ float_of_str text = Ok q /\
    79.5 <= q /\ q <= 81.4.
Proof.
  intros Hu. unfold mock_oil_item, date_add.
  destruct ((1 <=? toordinal s + Z.of_nat i)%Z &&
            (toordinal s + Z.of_nat i <=? MAXORDINAL)%Z); [|discriminate].
  cbn [bind]. intro H. injection H as <-. cbn [date value].
  split; [reflexivity|].
  set (price := 80.0 + inject_Z (Z.of_nat i mod 10) * 0.1 + uniform w i).
  destruct (float_of_str_hundredths (round_half_even (price * 100)))
    as (q & Hq & Vq).
  exists (str_hundredths (round_half_even (price * 100))), q.
  split; [reflexivity|]. split; [exact Hq|].
  destruct (Hu i) as [U1 U2].
  destruct (mock_price_bounds (uniform w i) i U1 U2) as [B1 B2].
  fold price in B1, B2.
  destruct (round_half_even_between 7950 8140 _ B1 B2) as [K1 K2].
  rewrite Zle_Qle in K1, K2.
  change (inject_Z 7950) with 7950 in K1.
  change (inject_Z 8140) with 8140 in K2.
  rewrite Vq. split.
  - apply Qle_shift_div_l; [reflexivity|]. lra.
  - apply Qle_shift_div_r; [reflexivity|]. lra.
Qed.

(** The synthetic series of a window of valid dates [start <= end], for
    draws within [-0.5, 0.5]: its length, its entries, the first and the
    last one. *)
Lemma mock_oil_series_entries
    (w : World) (start end_ : string) (s e : Py.date) :
  strptime_ymd start = Ok s -> strptime_ymd end_ = Ok e ->
  (toordinal s <= toordinal e)%Z ->
  (forall j, - (1 # 2) <= uniform w j /\ uniform w j <= 1 # 2) ->
  exists data,
    generate_mock_oil_data w start end_ = Ok data /\
    Z.of_nat (List.length data) = (days_between e s + 1)%Z /\
    (forall i it, nth_error data i = Some it ->
       date it = isoformat (fromordinal (toordinal s + Z.of_nat i)) /\
       exists text q,
         value it = Str text /\ float_of_str text = Ok q /\
         79.5 <= q /\ q <= 81.4) /\
    (exists first, nth_error data 0 = Some first /\ date first = isoformat s) /\
    (exists latest,
       last_item data = Some latest /\ date latest = isoformat e /\
       nth_error data (List.length data - 1) = Some latest).
Proof.
  intros Hs He Hle Hu.
  destruct (generate_mock_oil_data_days w start end_ s e Hs He Hle)
    as (data & Hdata & Hlen & Hdates).
  exists data. split; [exact Hdata|]. split; [exact Hlen|].
  assert (Hitems : forall i it, nth_error data i = Some it ->
            date it = isoformat (fromordinal (toordinal s + Z.of_nat i)) /\
            exists text q,
              value it = Str text /\ float_of_str text = Ok q /\
              79.5 <= q /\ q <= 81.4).
  { intros i it Hi.
    unfold generate_mock_oil_data in Hdata. rewrite Hs, He in Hdata.
    cbn [bind] in Hdata.
    destruct (for_range_inv _ _ _ Hdata) as [Hn Hnth].
    assert (Hlt : (i < List.length data)%nat).
    { apply nth_error_Some. rewrite Hi. discriminate. }
    rewrite Hn in Hlt. destruct (Hnth i Hlt) as (x & Hx & Hi').
    rewrite Hi in Hi'. injection Hi' as <-.
    exact (mock_oil_item_inv w s i it Hu Hx). }
  split; [exact Hitems|].
  unfold days_between in Hlen.
  destruct data as [|first rest]; [simpl in Hlen; lia|].
  split.
  - exists first. split; [reflexivity|].
    destruct (Hitems 0%nat first eq_refl) as [Hd _].
    rewrite Hd, Z.add_0_r.
    now rewrite (fromordinal_toordinal s (strptime_ymd_valid _ _ Hs)).
  - exists (last (first :: rest) first).
    pose proof (nth_error_last (first :: rest) first ltac:(discriminate))
      as Hlast.
    split; [reflexivity|]. split; [|exact Hlast].
    destruct (Hitems _ _ Hlast) as [Hd _]. rewrite Hd.
    replace (toordinal s + Z.of_nat (List.length (first :: rest) - 1))%Z
      with (toordinal e) by lia.
    now rewrite (fromordinal_toordinal e (strptime_ymd_valid _ _ He)).
Qed.



End MockSeries.

Section MockSeriesAnalysis.
Import Data McpTools.

Lemma min_from_ge (lo : Q) (xs : list Q) :
  forall m, lo <= m -> (forall x, In x xs -> lo <= x) -> lo <= min_from m xs.
Proof.
  induction xs as [|x xs IH]; intros m Hm Hxs; simpl; [exact Hm|].
  apply IH.
  - destruct (ltb x m); [apply Hxs; now left|exact Hm].
  - intros y Hy. apply Hxs. now right.
Qed.

Lemma max_from_le (hi : Q) (xs : list Q) :
  forall m, m <= hi -> (forall x, In x xs -> x <= hi) -> max_from m xs <= hi.
Proof.
  induction xs as [|x xs IH]; intros m Hm Hxs; simpl; [exact Hm|].
  apply IH.
  - destruct (gtb x m); [apply Hxs; now left|exact Hm].
  - intros y Hy. apply Hxs. now right.
Qed.

(** The entries of a series that all read as numbers within bounds. *)
Lemma readable_series (lo hi : Q) (data : list item) :
  (forall i it, nth_error data i = Some it ->
     exists text q, value it = Str text /\ float_of_str text = Ok q /\
                    lo <= q /\ q <= hi) ->
  exists qs, Forall2 numeric_item data qs /\ bounded lo hi qs.
Proof.
  induction data as [|it data IH]; intro H.
  - exists []. split; [constructor|]. intros x [].
  - destruct (H 0%nat it eq_refl) as (text & q & Hv & Hq & B1 & B2).
    destruct IH as (qs & Hqs & Bqs).
    { intros i it' Hi. exact (H (S i) it' Hi). }
    exists (q :: qs). split.
    + constructor; [|exact Hqs]. right. exists text. split; assumption.
    + intros x [<-|Hx]; [split; assumption|exact (Bqs x Hx)].
Qed.

Lemma last_in {A : Type} (l : list A) (d : A) : In (last l d) (d :: l).
Proof.
  induction l as [|x l IH]; [now left|].
  destruct l as [|y l]; [right; now left|].
  change (last (x :: y :: l) d) with (last (y :: l) d).
  destruct IH as [E|E]; [now left|right; now right].
Qed.

(** The analysis of a series whose entries all read as numbers between
    79.5 and 81.4. *)
Lemma readable_series_analysis (data : list item) :
  (2 <= List.length data)%nat ->
  (forall i it, nth_error data i = Some it ->
     exists text q, value it = Str text /\ float_of_str text = Ok q /\
                    79.5 <= q /\ q <= 81.4) ->
  exists a st,
    analyze_price_data data = Ok a /\ stats a = Some st /\
    List.length (numeric_values data) = List.length data /\
    79.5 <= min st /\ max st <= 81.4 /\
    -2.39 <= percent_change st /\ percent_change st <= 2.39 /\
    retail_price st = None /\ fx_rate st = None /\
    (trend a = "moderately upward" \/ trend a = "relatively stable" \/
     trend a = "moderately downward").
Proof.
  intros Hlen Hitems.
  destruct (readable_series 79.5 81.4 data Hitems) as (qs & Hqs & Bqs).
  destruct qs as [|f xs].
  { inversion Hqs. subst data. simpl in Hlen. lia. }
  assert (Hf : 79.5 <= f /\ f <= 81.4) by (apply Bqs; now left).
  set (l := last (f :: xs) f).
  assert (Hl : 79.5 <= l /\ l <= 81.4).
  { apply Bqs. subst l.
    destruct (last_in (f :: xs) f) as [E|E]; [rewrite <- E; now left|exact E]. }
  assert (Hnz : ~ f == 0) by (intro E; rewrite E in Hf; lra).
  destruct (analyze_numeric data f xs Hqs Hlen Hnz) as (st & Ha & Hst).
  fold l in Ha, Hst.
  set (pc := (l - f) / f * 100) in *.
  assert (Hpc : -2.39 <= pc /\ pc <= 2.39).
  { assert (Hpos : 0 < f) by lra.
    assert (R1 : (l - f) / f <= 0.0239)
      by (apply Qle_shift_div_r; [exact Hpos|lra]).
    assert (R2 : -0.0239 <= (l - f) / f)
      by (apply Qle_shift_div_l; [exact Hpos|lra]).
    unfold pc. split; lra. }
  eexists. exists st.
  split; [exact Ha|]. split; [reflexivity|].
  pose proof (Forall2_length Hqs) as Hlen2.
  rewrite (numeric_values_floats _ _ Hqs), length_map.
  split; [now symmetry|].
  assert (Hnone : retail_price st = None /\ fx_rate st = None).
  { unfold stats_dict in Hst.
    repeat match type of Hst with
           | bind ?m _ = _ => destruct m; cbn [bind] in Hst; [|discriminate]
           end.
    injection Hst as <-. split; reflexivity. }
  apply stats_dict_inv in Hst.
  destruct Hst as (Hmin & Hmax & _ & _ & _ & _ & _ & Hpcst & _).
  cbn [Py.min Py.max] in Hmin, Hmax.
  injection Hmin as Hmin. injection Hmax as Hmax.
  split; [|split; [|split; [|split; [|split; [|split]]]]].
  - rewrite <- Hmin. apply min_from_ge; [tauto|].
    intros x Hx. apply Bqs. now right.
  - rewrite <- Hmax. apply max_from_le; [tauto|].
    intros x Hx. apply Bqs. now right.
  - rewrite Hpcst. unfold round2.
    destruct (round_half_even_between (-239) 239 (pc * 100)) as [K _].
    { change (inject_Z (-239)) with (-239). lra. }
    { change (inject_Z 239) with 239. lra. }
    rewrite Zle_Qle in K. change (inject_Z (-239)) with (-239) in K.
    apply Qle_shift_div_l; [reflexivity|]. lra.
  - rewrite Hpcst. unfold round2.
    destruct (round_half_even_between (-239) 239 (pc * 100)) as [_ K].
    { change (inject_Z (-239)) with (-239). lra. }
    { change (inject_Z 239) with 239. lra. }
    rewrite Zle_Qle in K. change (inject_Z 239) with 239 in K.
    apply Qle_shift_div_r; [reflexivity|]. lra.
  - tauto.
  - tauto.
  - cbn [trend]. destruct (trend_of_bucket pc); auto; exfalso; lra.
Qed.

(** X2.  On the synthetic series of a window of two days or more, with
    draws within [-0.5, 0.5], [analyze_price_data] always computes
    statistics: no entry is skipped, the minimum and the maximum lie
    between 79.5 and 81.4, the reported percent change between -2.39 and
    2.39, and the trend is never a strong one. *)
Theorem mock_series_analysis
    (w : World) (start end_ : string) (s e : Py.date) :
  strptime_ymd start = Ok s -> strptime_ymd end_ = Ok e ->
  (toordinal s < toordinal e)%Z ->
  (forall j, - (1 # 2) <= uniform w j /\ uniform w j <= 1 # 2) ->
  exists data a st,
    generate_mock_oil_data w start end_ = Ok data /\
    analyze_price_data data = Ok a /\ stats a = Some st /\
    List.length (numeric_values data) = List.length data /\
    79.5 <= min st /\ max st <= 81.4 /\
    -2.39 <= percent_change st /\ percent_change st <= 2.39 /\
    (trend a = "moderately upward" \/ trend a = "relatively stable" \/
     trend a = "moderately downward").
Proof.
  intros Hs He Hlt Hu.
  destruct (mock_oil_series_entries w start end_ s e Hs He
              ltac:(lia) Hu) as (data & Hdata & Hlen & Hitems & _).
  unfold days_between in Hlen.
  destruct (readable_series_analysis data ltac:(lia))
    as (a & st & Ha & Hs' & Hn & B1 & B2 & P1 & P2 & _ & _ & Ht).
  { intros i it Hi. exact (proj2 (Hitems i it Hi)). }
  exists data, a, st. repeat split; assumption.
Qed.

Lemma mock_series_analysis_witness :
  exists data a,
    generate_mock_oil_data offline "2024-05-01" "2024-05-31" = Ok data /\
    analyze_price_data data = Ok a /\
    trend a <> "strongly upward" /\ trend a <> "strongly downward".
Proof.
  destruct (mock_series_analysis offline "2024-05-01" "2024-05-31"
              (mkDate 2024 5 1) (mkDate 2024 5 31) eq_refl eq_refl)
    as (data & a & st & Hdata & Ha & _ & _ & _ & _ & _ & _ & Ht).
  - vm_compute. reflexivity.
  - intro j. cbn [uniform offline]. destruct (Nat.even j); split; lra.
  - exists data, a. split; [exact Hdata|]. split; [exact Ha|].
    destruct Ht as [E|[E|E]]; rewrite E; split; discriminate.
Defined.

End MockSeriesAnalysis.

Section FetchErrors.
Import Data.







End FetchErrors.

Section CalendarBack.

(** The month tables depend on the year through [is_leap] only. *)
Lemma month_tables_leap (y y0 m : Z) :
  is_leap y = is_leap y0 ->
  days_in_month y m = days_in_month y0 m /\
  days_before_month y m = days_before_month y0 m.
Proof.
  intro H. unfold days_in_month, days_before_month. now rewrite H.
Qed.

(** From a month to the next one. *)
Lemma month_step (y m : Z) :
  (1 <= m < 12)%Z ->
  (1 <= days_in_month y (m + 1))%Z /\
  days_before_month y (m + 1)
    = (days_before_month y m + days_in_month y m)%Z.
Proof.
  intro Hm.
  assert (G : forall y0, is_leap y = is_leap y0 ->
            ((1 <= days_in_month y0 (m + 1))%Z /\
             days_before_month y0 (m + 1)
               = (days_before_month y0 m + days_in_month y0 m)%Z) ->
            (1 <= days_in_month y (m + 1))%Z /\
            days_before_month y (m + 1)
              = (days_before_month y m + days_in_month y m)%Z).
  { intros y0 E.
    destruct (month_tables_leap y y0 m E) as [-> ->].
    destruct (month_tables_leap y y0 (m + 1) E) as [-> ->]. tauto. }
  assert (C : (m = 1 \/ m = 2 \/ m = 3 \/ m = 4 \/ m = 5 \/ m = 6 \/ m = 7 \/
               m = 8 \/ m = 9 \/ m = 10 \/ m = 11)%Z) by lia.
  destruct (is_leap y) eqn:L.
  - apply (G 2024%Z); [reflexivity|].
    repeat (destruct C as [-> | C];
            [split; [vm_compute; discriminate|reflexivity]|]).
    subst m. split; [vm_compute; discriminate|reflexivity].
  - apply (G 2023%Z); [reflexivity|].
    repeat (destruct C as [-> | C];
            [split; [vm_compute; discriminate|reflexivity]|]).
    subst m. split; [vm_compute; discriminate|reflexivity].
Qed.

(** The last day of the year. *)
Lemma december_31 (y : Z) :
  (days_before_month y 12 + days_in_month y 12
   = 365 + (if is_leap y then 1 else 0))%Z.
Proof.
  unfold days_before_month, days_in_month.
  destruct (is_leap y); reflexivity.
Qed.

(** The day after a date that is not the last one. *)
Lemma next_day (d : date) :
  valid_date d = true -> (toordinal d < MAXORDINAL)%Z ->
  exists d', valid_date d' = true /\ toordinal d' = (toordinal d + 1)%Z.
Proof.
  intros V Hlt.
  pose proof (valid_date_inv d V) as (Hy & Hm & Hd).
  destruct d as [y m dd]. cbn [year month day] in *.
  unfold toordinal in *. cbn [year month day] in *.
  destruct (Z_lt_ge_dec dd (days_in_month y m)) as [Hin|Hend].
  - exists (mkDate y m (dd + 1)). split.
    + unfold valid_date. cbn [year month day].
      rewrite !andb_true_iff, !Z.leb_le. lia.
    + unfold toordinal. cbn [year month day]. lia.
  - assert (Edd : dd = days_in_month y m) by lia.
    destruct (Z_lt_ge_dec m 12) as [Hm12|Hm12].
    + destruct (month_step y m ltac:(lia)) as [S1 S2].
      exists (mkDate y (m + 1) 1). split.
      * unfold valid_date. cbn [year month day].
        rewrite !andb_true_iff, !Z.leb_le. lia.
      * unfold toordinal. cbn [year month day]. lia.
    + assert (m = 12%Z) by lia. subst m.
      pose proof (december_31 y) as D.
      pose proof (days_before_next_year y) as N.
      assert (Hy' : (y < MAXYEAR)%Z).
      { destruct (Z_lt_ge_dec y MAXYEAR) as [L|G]; [exact L|exfalso].
        assert (y = 9999%Z) by (unfold MAXYEAR in *; lia). subst y dd.
        revert Hlt. vm_compute. intro H. discriminate H. }
      exists (mkDate (y + 1) 1 1). split.
      * unfold valid_date. cbn [year month day].
        rewrite !andb_true_iff, !Z.leb_le.
        change (days_in_month (y + 1) 1) with 31%Z. lia.
      * unfold toordinal. cbn [year month day].
        change (days_before_month (y + 1) 1) with 0%Z. lia.
Qed.

(** Every ordinal of the calendar is that of a valid date. *)
Lemma ordinal_of_some_date (n : Z) :
  (1 <= n <= MAXORDINAL)%Z ->
  exists d, valid_date d = true /\ toordinal d = n.
Proof.
  intros [H1 H2]. revert H2.
  pattern n. apply (Zlt_lower_bound_ind _ 1%Z); [|exact H1].
  intros x IH Hx Hmax.
  destruct (Z.eq_dec x 1) as [->|Hne].
  - exists (mkDate 1 1 1). split; reflexivity.
  - destruct (IH (x - 1)%Z ltac:(lia) ltac:(lia)) as (d & V & E).
    destruct (next_day d V ltac:(lia)) as (d' & V' & E').
    exists d'. split; [exact V'|lia].
Qed.

(** [fromordinal] gives a valid date, whose ordinal is the one asked. *)
Lemma fromordinal_valid (n : Z) :
  (1 <= n <= MAXORDINAL)%Z ->
  valid_date (fromordinal n) = true /\ toordinal (fromordinal n) = n.
Proof.
  intro H. destruct (ordinal_of_some_date n H) as (d & V & <-).
  rewrite (fromordinal_toordinal d V). split; [exact V|reflexivity].
Qed.

(** What [d + timedelta(days=n)] is, when it is a date. *)
Lemma date_add_inv (d : date) (n : Z) (d' : date) :
  date_add d n = Ok d' ->
  valid_date d' = true /\ toordinal d' = (toordinal d + n)%Z.
Proof.
  unfold date_add.
  destruct ((1 <=? toordinal d + n)%Z && (toordinal d + n <=? MAXORDINAL)%Z)
    eqn:E; [|discriminate].
  apply andb_true_iff in E. rewrite !Z.leb_le in E.
  intro H. injection H as <-. now apply fromordinal_valid.
Qed.


End CalendarBack.

Section DateTexts.







End DateTexts.

Section SingleRate.
Import Data McpTools.

Lemma contains_char (sep : ascii) (c : ascii) (s : string) :
  contains (String sep "") (String c s)
  = Ascii.eqb sep c || contains (String sep "") s.
Proof.
  cbn [contains String.prefix].
  destruct (ascii_dec sep c) as [E|E].
  - subst c. rewrite Ascii.eqb_refl. destruct s; reflexivity.
  - apply Ascii.eqb_neq in E. rewrite E. reflexivity.
Qed.

(** A text without the separator is a single part. *)
Lemma split_single (sep : ascii) (s : string) :
  contains (String sep "") s = false -> split sep s = [s].
Proof.
  induction s as [|c s IH]; [reflexivity|].
  rewrite contains_char. intro H. apply orb_false_iff in H.
  destruct H as [H1 H2]. cbn [split].
  rewrite Ascii.eqb_sym, H1, (IH H2). reflexivity.
Qed.

(** No part of a split holds the separator. *)
Lemma split_parts (sep : ascii) (s : string) :
  forall p, In p (split sep s) -> contains (String sep "") p = false.
Proof.
  induction s as [|c s IH]; intros p Hp.
  - destruct Hp as [<-|[]]. reflexivity.
  - cbn [split] in Hp. destruct (Ascii.eqb c sep) eqn:E.
    + destruct Hp as [<-|Hp]; [reflexivity|exact (IH p Hp)].
    + destruct (split sep s) as [|w ws] eqn:Es.
      * destruct Hp as [<-|[]]. rewrite contains_char, Ascii.eqb_sym, E.
        reflexivity.
      * destruct Hp as [<-|Hp].
        { rewrite contains_char, Ascii.eqb_sym, E. apply IH. now left. }
        { apply IH. now right. }
Qed.

(** X4.  Without a key for the exchange rates, [get_fx_rate] answers
    with the rate 1.0 for every symbol that holds no comma, whatever the
    currency, and with [None] for a list of symbols such as the default
    ["EUR,JPY"]: the synthetic rates are keyed by the parts of the list,
    and the whole text is looked up. *)
Theorem get_fx_rate_without_key (w : World) (symbol : string) :
  unset (OXR_KEY w) = true ->
  (contains "," symbol = false ->
   exists r, get_fx_rate w symbol = Ok [(symbol, Some r)] /\ r == 1) /\
  (contains "," symbol = true ->
   get_fx_rate w symbol = Ok [(symbol, None)]).
Proof.
  intro Hkey. unfold get_fx_rate, fetch_fx_rates. rewrite Hkey.
  cbn [bind]. unfold generate_mock_fx_data. split; intro H.
  - rewrite (split_single "," symbol H). cbn [mock_rates store lookup].
    rewrite String.eqb_refl. eexists. split; reflexivity.
  - rewrite data_mock_rates_absent; [reflexivity|].
    intro Hin. apply split_parts in Hin. congruence.
Qed.

Lemma get_fx_rate_without_key_witness :
  (exists r, get_fx_rate offline "GBP" = Ok [("GBP", Some r)] /\ r == 1) /\
  get_fx_rate offline "EUR,JPY" = Ok [("EUR,JPY", None)].
Proof.
  destruct (get_fx_rate_without_key offline "GBP" eq_refl) as [H1 _].
  destruct (get_fx_rate_without_key offline "EUR,JPY" eq_refl) as [_ H2].
  split; [apply H1|apply H2]; reflexivity.
Defined.

End SingleRate.

Section Endpoints.
Import Data.

Lemma float_of_str_raises (s : string) (ex : exn) :
  float_of_str s = Raise ex -> ex = ValueError.
Proof.
  unfold float_of_str.
  destruct (read_sign (strip s)) as [neg s1].
  destruct (read_digits s1 0 0) as [[ip ni] s2].
  destruct (match s2 with
            | String "." s2' => read_digits s2' 0%Z 0
            | _ => (0%Z, 0%nat, s2)
            end) as [[fp nf] s3].
  destruct (ni + nf)%nat; [intro H; now injection H as <-|].
  destruct (read_exponent s3); [discriminate|].
  intro H. now injection H as <-.
Qed.









End Endpoints.

Section MarketAnswer.
Import Data McpTools.

Lemma last_five_length {A : Type} (xs : list A) :
  List.length (last_five xs) = Nat.min 5 (List.length xs).
Proof. unfold last_five. rewrite length_skipn. lia. Qed.

Lemma last_default {A : Type} (l : list A) (d d' : A) :
  l <> [] -> last l d = last l d'.
Proof.
  induction l as [|x l IH]; intro H; [contradiction|].
  destruct l as [|y l]; [reflexivity|].
  change (last (y :: l) d = last (y :: l) d'). apply IH. discriminate.
Qed.

Lemma last_item_cons (x y : item) (ys : list item) :
  last_item (x :: y :: ys) = last_item (y :: ys).
Proof.
  unfold last_item. f_equal.
  change (last (y :: ys) x = last (y :: ys) y).
  apply last_default. discriminate.
Qed.

Lemma last_item_skipn (xs : list item) :
  forall k, (k < List.length xs)%nat -> last_item (skipn k xs) = last_item xs.
Proof.
  induction xs as [|x xs IH]; intros k Hk; [simpl in Hk; lia|].
  destruct k as [|k]; [reflexivity|].
  cbn [skipn]. simpl in Hk. rewrite IH by lia.
  destruct xs as [|y ys]; [simpl in Hk; lia|].
  symmetry. apply last_item_cons.
Qed.

Lemma last_item_last_five (xs : list item) :
  last_item (last_five xs) = last_item xs.
Proof.
  unfold last_five. destruct xs as [|x xs]; [reflexivity|].
  apply last_item_skipn. simpl. lia.
Qed.

(** Storing the retail quote keeps statistics where there were some. *)
Lemma add_retail_price_some (w : World) (p : Parameters)
    (series : list item) (stats stats' : option Stats) :
  add_retail_price w p series stats = Ok stats' ->
  stats' <> None -> stats <> None.
Proof.
  unfold add_retail_price.
  destruct (location p) as [c|]; [|intro H; now injection H as <-].
  destruct (lookup c COUNTRY_FUEL_DATA) as [cd|];
    [|intro H; now injection H as <-].
  destruct (last_item series) as [latest|];
    [|intro H; now injection H as <-].
  destruct (latest_price_usd (value latest)); cbn [bind]; [|discriminate].
  destruct stats; [intros _ _; discriminate|discriminate].
Qed.

Lemma analyze_stats_length (series : list item) (a : Analysis) :
  analyze_price_data series = Ok a -> stats a <> None ->
  (2 <= List.length series)%nat.
Proof.
  intros Ha Hs. destruct (stats a) as [st|] eqn:E; [|contradiction].
  destruct (analyze_inv _ _ _ Ha E) as (_ & _ & _ & L & _). exact L.
Qed.

Lemma parse_query_fallback_query (w : World) (question : string)
    (p : Parameters) :
  parse_query_fallback w question = Ok p -> original_query p = question.
Proof.
  unfold parse_query_fallback.
  match goal with
  | |- bind ?m _ = _ -> _ => destruct m; [|discriminate]
  end.
  cbn [bind]. intro H. now injection H as <-.
Qed.

Lemma parse_query_with_llm_query (w : World) (llm : Llm) (question : string)
    (p : Parameters) :
  parse_query_with_llm w llm question = Ok p -> original_query p = question.
Proof.
  unfold parse_query_with_llm.
  destruct (String.eqb (OPENROUTER_API_KEY llm) "").
  { destruct (parse_query_fallback w question) eqn:E; cbn [try_except].
    - intro H. injection H as <-. exact (parse_query_fallback_query _ _ _ E).
    - discriminate. }
  destruct (chat_parse llm question) as [[j|]|e]; cbn [try_except].
  - match goal with
    | |- context [bind ?m _] => destruct m; cbn [bind try_except]
    end.
    + intro H. now injection H as <-.
    + apply parse_query_fallback_query.
  - destruct (parse_query_fallback w question) eqn:E; cbn [try_except].
    + intro H. injection H as <-. exact (parse_query_fallback_query _ _ _ E).
    + discriminate.
  - apply parse_query_fallback_query.
Qed.

(** X8.  What [process_market_query] returns is either the answer that
    reports an error, with empty data and the question as the only
    parameter, or the parameters of the question with its data.  In the
    data the oil prices and the exchange rates never come together; the
    oil prices are there for the intents "oil_price" and "unknown" only:
    the recent prices are the last five entries of the fetched series (all
    of them when there are fewer), the latest price is the last of them,
    and statistics are there only for a series of two entries or more.
    The exchange rates are there for the intent "fx_rates" only, with the
    base USD. *)
Theorem market_answer_shape
    (w : World) (llm : Llm) (question : string) (r : MarketAnswer) :
  process_market_query w llm question = Ok r ->
  (exists e,
     answer r = ErrorWhileProcessing e /\
     data r = {| oil_data := None; fx_data := None |} /\
     parameters r = None) \/
  (exists p,
     parameters r = Some p /\ original_query p = question /\
     (oil_data (data r) = None \/ fx_data (data r) = None) /\
     (forall od, oil_data (data r) = Some od ->
        (intent p = "oil_price" \/ intent p = "unknown") /\
        exists first_day last_day series,
          start_date p = Some first_day /\ end_date p = Some last_day /\
          fetch_oil_prices w first_day last_day = Ok series /\
          recent_prices od = last_five series /\
          List.length (recent_prices od) = Nat.min 5 (List.length series) /\
          latest_price od = last_item series /\
          latest_price od = last_item (recent_prices od) /\
          (oil_stats od <> None -> (2 <= List.length series)%nat)) /\
     (forall fd, fx_data (data r) = Some fd ->
        intent p = "fx_rates" /\ base fd = "USD" /\ timestamp fd = now w)).
Proof.
  unfold process_market_query.
  destruct (parse_query_with_llm w llm question) as [p|e] eqn:Hp;
    cbn [bind try_except];
    [|intro H; injection H as <-; left; eexists; repeat split].
  pose proof (parse_query_with_llm_query _ _ _ _ Hp) as Hq.
  destruct (String.eqb (intent p) "oil_price" || String.eqb (intent p) "unknown")
    eqn:Hoil.
  - assert (Hint : intent p = "oil_price" \/ intent p = "unknown").
    { apply orb_true_iff in Hoil.
      destruct Hoil as [E|E]; apply String.eqb_eq in E; auto. }
    assert (Hfx : String.eqb (intent p) "fx_rates" = false).
    { destruct Hint as [-> | ->]; reflexivity. }
    rewrite Hfx.
    destruct (start_date p) as [sd|] eqn:Hsd; cbn [bind try_except];
      [|intro H; injection H as <-; left; eexists; repeat split].
    destruct (end_date p) as [ed|] eqn:Hed; cbn [bind try_except];
      [|intro H; injection H as <-; left; eexists; repeat split].
    destruct (fetch_oil_prices w sd ed) as [series|] eqn:Hf;
      cbn [bind try_except];
      [|intro H; injection H as <-; left; eexists; repeat split].
    destruct (analyze_price_data series) as [a|] eqn:Ha;
      cbn [bind try_except];
      [|intro H; injection H as <-; left; eexists; repeat split].
    destruct (add_retail_price w p series (stats a)) as [st'|] eqn:Hr;
      cbn [bind try_except];
      [|intro H; injection H as <-; left; eexists; repeat split].
    intro H. injection H as <-. right. exists p.
    cbn [parameters data oil_data fx_data].
    split; [reflexivity|]. split; [exact Hq|]. split; [now right|].
    split; [|discriminate].
    intros od Hod. injection Hod as <-.
    cbn [recent_prices latest_price oil_stats].
    split; [exact Hint|]. exists sd, ed, series.
    repeat split; try reflexivity; try assumption.
    + apply last_five_length.
    + symmetry. apply last_item_last_five.
    + intro Hs. apply (analyze_stats_length series a Ha).
      exact (add_retail_price_some _ _ _ _ _ Hr Hs).
  - cbn [bind].
    destruct (String.eqb (intent p) "fx_rates") eqn:Hfx.
    + destruct (fetch_fx_rates_returns w "USD"
                  (or_else (currency p) "EUR" ++ ",USD,GBP,JPY,CAD"))
        as [rates ->].
      cbn [bind try_except]. intro H. injection H as <-. right. exists p.
      cbn [parameters data oil_data fx_data].
      split; [reflexivity|]. split; [exact Hq|]. split; [now left|].
      split; [discriminate|].
      intros fd Hfd. injection Hfd as <-. cbn [base timestamp].
      apply String.eqb_eq in Hfx. repeat split; assumption.
    + cbn [bind try_except]. intro H. injection H as <-. right. exists p.
      cbn [parameters data oil_data fx_data].
      split; [reflexivity|]. split; [exact Hq|]. split; [now left|].
      split; discriminate.
Qed.

Lemma market_answer_shape_witness :
  exists r p od,
    process_market_query live_six_prices parsing_llm "oil this week?" = Ok r /\
    parameters r = Some p /\ oil_data (data r) = Some od /\
    List.length (recent_prices od) = 5%nat /\
    latest_price od = last_item (recent_prices od).
Proof.
  assert (E : exists r,
            process_market_query live_six_prices parsing_llm "oil this week?"
              = Ok r /\
            (forall e, answer r <> ErrorWhileProcessing e) /\
            oil_data (data r) <> None /\
            option_map (fun od => List.length (recent_prices od))
              (oil_data (data r)) = Some 5%nat).
  { eexists. split; [vm_compute; reflexivity|].
    split; [discriminate|]. split; [discriminate|reflexivity]. }
  destruct E as (r & E & Hne & Hoil & Hfive).
  destruct (market_answer_shape _ _ _ _ E)
    as [(e & Ha & _)|(p & Hp & _ & _ & H & _)].
  - exfalso. exact (Hne e Ha).
  - destruct (oil_data (data r)) as [od|] eqn:Hod; [|contradiction].
    destruct (H od eq_refl) as (_ & _ & _ & _ & _ & _ & _ & _ & _ & _ & Hlast & _).
    exists r, p, od. cbn [option_map] in Hfive. injection Hfive as Hfive.
    repeat split; assumption.
Defined.

End MarketAnswer.

Section MarketAnswerText.
Import Data McpTools.





End MarketAnswerText.

Section AnswerTrend.
Import Data McpTools.

Lemma round_half_even_le (hi : Z) (x : Q) :
  x <= inject_Z hi -> (round_half_even x <= hi)%Z.
Proof.
  intro H. destruct (round_half_even_close x) as [C1 _].
  destruct (Z_le_gt_dec (round_half_even x) hi) as [L|G]; [exact L|].
  exfalso. assert (G' : (hi + 1 <= round_half_even x)%Z) by lia.
  rewrite Zle_Qle, inject_Z_plus in G'. change (inject_Z 1) with 1 in G'.
  lra.
Qed.

Lemma round_half_even_ge (lo : Z) (x : Q) :
  inject_Z lo <= x -> (lo <= round_half_even x)%Z.
Proof.
  intro H. destruct (round_half_even_close x) as [_ C2].
  destruct (Z_le_gt_dec lo (round_half_even x)) as [L|G]; [exact L|].
  exfalso. assert (G' : (round_half_even x + 1 <= lo)%Z) by lia.
  rewrite Zle_Qle, inject_Z_plus in G'. change (inject_Z 1) with 1 in G'.
  lra.
Qed.

(** Rounding to two decimals does not cross a whole number of
    hundredths. *)
Lemma round2_le (k : Z) (x : Q) :
  x <= inject_Z k / 100 -> round2 x <= inject_Z k / 100.
Proof.
  intro H. unfold round2.
  assert (Hx : x * 100 <= inject_Z k).
  { setoid_replace (inject_Z k) with (inject_Z k / 100 * 100) by field.
    apply Qmult_le_compat_r; [exact H|discriminate]. }
  apply round_half_even_le in Hx. rewrite Zle_Qle in Hx.
  unfold Qdiv. apply Qmult_le_compat_r; [exact Hx|discriminate].
Qed.

Lemma round2_ge (k : Z) (x : Q) :
  inject_Z k / 100 <= x -> inject_Z k / 100 <= round2 x.
Proof.
  intro H. unfold round2.
  assert (Hx : inject_Z k <= x * 100).
  { setoid_replace (inject_Z k) with (inject_Z k / 100 * 100) by field.
    apply Qmult_le_compat_r; [exact H|discriminate]. }
  apply round_half_even_ge in Hx. rewrite Zle_Qle in Hx.
  unfold Qdiv. apply Qmult_le_compat_r; [exact Hx|discriminate].
Qed.

(** The rounded percent change, against the four thresholds. *)
Lemma round2_thresholds (pc : Q) :
  (pc <= 5 -> round2 pc <= 5) /\ (5 <= pc -> 5 <= round2 pc) /\
  (pc <= 1 -> round2 pc <= 1) /\ (1 <= pc -> 1 <= round2 pc) /\
  (pc <= -1 -> round2 pc <= -1) /\ (-1 <= pc -> -1 <= round2 pc) /\
  (pc <= -5 -> round2 pc <= -5) /\ (-5 <= pc -> -5 <= round2 pc).
Proof.
  pose proof (round2_le 500 pc) as A1. pose proof (round2_ge 500 pc) as A2.
  pose proof (round2_le 100 pc) as B1. pose proof (round2_ge 100 pc) as B2.
  pose proof (round2_le (-100) pc) as C1.
  pose proof (round2_ge (-100) pc) as C2.
  pose proof (round2_le (-500) pc) as D1.
  pose proof (round2_ge (-500) pc) as D2.
  assert (E5 : inject_Z 500 / 100 == 5) by reflexivity.
  assert (E1 : inject_Z 100 / 100 == 1) by reflexivity.
  assert (F1 : inject_Z (-100) / 100 == -1) by reflexivity.
  assert (F5 : inject_Z (-500) / 100 == -5) by reflexivity.
  rewrite E5 in A1, A2. rewrite E1 in B1, B2.
  rewrite F1 in C1, C2. rewrite F5 in D1, D2.
  repeat split; assumption.
Qed.

(** X11.  The trend that the template answer names is that of the
    rounded percent change, and the trend of the analysis that of the
    exact one.  They are the same, up to the name of the stable one
    ("stable" for "relatively stable"), unless the rounded percent change
    is exactly 5, 1, -1 or -5: then the answer names the lesser trend. *)
Theorem answer_trend_follows_analysis
    (oil_data : list item) (a : Analysis) (st : Stats) :
  analyze_price_data oil_data = Ok a -> stats a = Some st ->
  let answered := fallback_trend st in
  answered = trend a \/
  (trend a = "relatively stable" /\ answered = "stable") \/
  (percent_change st == 5 /\ trend a = "strongly upward" /\
   answered = "moderately upward") \/
  (percent_change st == 1 /\ trend a = "moderately upward" /\
   answered = "stable") \/
  (percent_change st == -1 /\ trend a = "moderately downward" /\
   answered = "stable") \/
  (percent_change st == -5 /\ trend a = "strongly downward" /\
   answered = "moderately downward").
Proof.
  intros Ha Hs.
  destruct (analyze_inv _ _ _ Ha Hs) as (f & xs & r & _ & _ & _ & Hst & Ht).
  apply stats_dict_inv in Hst.
  destruct Hst as (_ & _ & _ & _ & _ & _ & _ & Hpc & _).
  cbv zeta. rewrite Ht. unfold fallback_trend. rewrite Hpc.
  set (pc := r * 100).
  destruct (round2_thresholds pc) as (A1 & A2 & B1 & B2 & C1 & C2 & D1 & D2).
  assert (K : forall x y : Q, x <= y -> y <= x -> x == y)
    by (intros; lra).
  destruct (trend_of_bucket pc) as [U5|U1 U5|D5|D5 D1'|S1 S2];
    destruct (gtb (round2 pc) 5) eqn:G5;
    [apply gtb_gt in G5|apply gtb_le in G5
    |apply gtb_gt in G5|apply gtb_le in G5
    |apply gtb_gt in G5|apply gtb_le in G5
    |apply gtb_gt in G5|apply gtb_le in G5
    |apply gtb_gt in G5|apply gtb_le in G5].
  - left. reflexivity.
  - assert (E : round2 pc == 5) by (apply K; [exact G5|apply A2; lra]).
    replace (gtb (round2 pc) 1) with true
      by (symmetry; apply gtb_gt; lra).
    right. right. left. repeat split. exact E.
  - exfalso. apply A1 in U5. lra.
  - destruct (gtb (round2 pc) 1) eqn:G1;
      [left; reflexivity|apply gtb_le in G1].
    assert (E : round2 pc == 1) by (apply K; [exact G1|apply B2; lra]).
    replace (ltb (round2 pc) (-5)) with false
      by (symmetry; apply ltb_ge; lra).
    replace (ltb (round2 pc) (-1)) with false
      by (symmetry; apply ltb_ge; lra).
    right. right. right. left. repeat split. exact E.
  - exfalso. assert (round2 pc <= -5) by (apply D1; lra). lra.
  - replace (gtb (round2 pc) 1) with false
      by (symmetry; apply gtb_le; assert (round2 pc <= -5) by (apply D1; lra);
          lra).
    destruct (ltb (round2 pc) (-5)) eqn:L5;
      [left; reflexivity|apply ltb_ge in L5].
    assert (E : round2 pc == -5) by (apply K; [apply D1; lra|exact L5]).
    replace (ltb (round2 pc) (-1)) with true
      by (symmetry; apply ltb_lt; lra).
    right. right. right. right. right. repeat split. exact E.
  - exfalso. assert (round2 pc <= -1) by (apply C1; lra). lra.
  - assert (R1 : round2 pc <= -1) by (apply C1; lra).
    assert (R2 : -5 <= round2 pc) by (apply D2; lra).
    replace (gtb (round2 pc) 1) with false by (symmetry; apply gtb_le; lra).
    replace (ltb (round2 pc) (-5)) with false
      by (symmetry; apply ltb_ge; lra).
    destruct (ltb (round2 pc) (-1)) eqn:L1;
      [left; reflexivity|apply ltb_ge in L1].
    assert (E : round2 pc == -1) by (apply K; assumption).
    right. right. right. right. left. repeat split. exact E.
  - exfalso. assert (round2 pc <= 1) by (apply B1; lra). lra.
  - assert (R1 : round2 pc <= 1) by (apply B1; lra).
    assert (R2 : -1 <= round2 pc) by (apply C2; lra).
    replace (gtb (round2 pc) 1) with false by (symmetry; apply gtb_le; lra).
    replace (ltb (round2 pc) (-5)) with false
      by (symmetry; apply ltb_ge; lra).
    replace (ltb (round2 pc) (-1)) with false
      by (symmetry; apply ltb_ge; lra).
    right. left. split; reflexivity.
Qed.

Lemma answer_trend_follows_analysis_witness :
  exists a st,
    analyze_price_data
      [ mkItem "2024-05-01" (Float 100); mkItem "2024-05-02" (Float 105.004) ]
      = Ok a /\ stats a = Some st /\
    trend a = "strongly upward" /\ fallback_trend st = "moderately upward" /\
    percent_change st == 5.
Proof.
  assert (E : exists a st,
            analyze_price_data
              [ mkItem "2024-05-01" (Float 100);
                mkItem "2024-05-02" (Float 105.004) ] = Ok a /\
            stats a = Some st /\ trend a = "strongly upward" /\
            fallback_trend st <> "strongly upward").
  { do 2 eexists. split; [vm_compute; reflexivity|].
    split; [reflexivity|]. split; [reflexivity|].
    vm_compute. discriminate. }
  destruct E as (a & st & Ha & Hs & Ht & Hne).
  exists a, st. split; [exact Ha|]. split; [exact Hs|]. split; [exact Ht|].
  pose proof (answer_trend_follows_analysis _ a st Ha Hs) as H.
  cbv zeta in H. rewrite Ht in H.
  destruct H as [H|[[H _]|[(E & _ & H)|[(_ & H & _)|[(_ & H & _)|(_ & H & _)]]]]];
    try discriminate H.
  - contradiction.
  - split; [exact H|exact E].
Defined.

End AnswerTrend.
